(** * Kanban board front end: optimistic mutations, view-model and drag handler

    A shallow embedding of the client-side logic of the task board:
    - [types/index.ts]            : [Task], [BackendTask], request records and the
                                    two column/status tables;
    - [services/kanban.service.ts]: the backend/frontend transformations;
    - [lib/kanban-utils.ts]       : [getTasksByStatus];
    - [hooks/useKanbanQueries.ts] : the four mutation hooks (onMutate / onError /
                                    onSuccess) over the query cache;
    - [hooks/useKanban.ts]        : [moveTask], [addTask], [deleteTask], [updateTask];
    - [lib/validations/task-schema.ts] and [TaskCreateForm.tsx] : the creation form;
    - [components/kanban/KanbanBoard.tsx] : the drag handlers;
    - [hooks/useKanbanQueries.ts] query keys, [lib/api.ts] interceptors,
      [getErrorMessage], and the dialog around the creation form.

    JavaScript numbers that hold ids, column ids and orders are integers ([Z]).
    Strings are sequences of code units; the characters of [string] stand for
    the code units U+0000..U+00FF, so [String.length] is the JS [length]. *)

From Stdlib Require Import ZArith List Ascii String.
From stdpp Require Import base decidable option list strings pretty gmap sorting.

Local Open Scope Z_scope.
Local Open Scope string_scope.
Local Open Scope list_scope.

(* ===================================================================== *)
(** ** JavaScript values                                                  *)
(* ===================================================================== *)

(** A field that may hold [undefined], [null] or a value. *)
Inductive nullable (A : Type) : Type :=
  | Undefined
  | Null
  | Val (a : A).
Arguments Undefined {A}.
Arguments Null {A}.
Arguments Val {A} a.

(** Truthiness of a number: [0] is falsy. *)
Definition truthy_number (n : Z) : bool := negb (Z.eqb n 0).

(** Truthiness of an optional number ([task.backendId]). *)
Definition truthy_opt_number (n : option Z) : bool :=
  match n with
  | Some k => truthy_number k
  | None => false
  end.

(** Truthiness of a string-or-null-or-undefined: only a non-empty string. *)
Definition truthy_text (d : nullable string) : bool :=
  match d with
  | Val s => negb (String.eqb s "")
  | _ => false
  end.

(** [d || undefined] and [d || null]. *)
Definition or_undefined (d : nullable string) : nullable string :=
  if truthy_text d then d else Undefined.

Definition or_null (d : nullable string) : nullable string :=
  if truthy_text d then d else Null.

(** [n || dflt] on an optional number. *)
Definition or_number (n : option Z) (dflt : Z) : Z :=
  match n with
  | Some k => if truthy_number k then k else dflt
  | None => dflt
  end.

(* ===================================================================== *)
(** ** types/index.ts                                                     *)
(* ===================================================================== *)

Inductive TaskStatus : Type :=
  | todo
  | in_progress
  | done.

#[global] Instance TaskStatus_eq_dec : EqDecision TaskStatus.
Proof. solve_decision. Defined.

Definition TaskStatus_to_nat (s : TaskStatus) : nat :=
  match s with todo => 0%nat | in_progress => 1%nat | done => 2%nat end.

Definition TaskStatus_of_nat (n : nat) : option TaskStatus :=
  match n with
  | 0%nat => Some todo
  | 1%nat => Some in_progress
  | 2%nat => Some done
  | _ => None
  end.

#[global] Instance TaskStatus_countable : Countable TaskStatus.
Proof.
  apply (inj_countable TaskStatus_to_nat TaskStatus_of_nat).
  intros []; reflexivity.
Defined.

(** The string literal behind each member of the union type. *)
Definition status_literal (s : TaskStatus) : string :=
  match s with
  | todo => "todo"
  | in_progress => "in-progress"
  | done => "done"
  end.

(** Reading a string as a [TaskStatus] (the cast [over.id as TaskStatus]
    keeps the string; only these three strings are members of the type). *)
Definition status_of_literal (x : string) : option TaskStatus :=
  if String.eqb x "todo" then Some todo
  else if String.eqb x "in-progress" then Some in_progress
  else if String.eqb x "done" then Some done
  else None.

Inductive Priority : Type :=
  | low
  | medium
  | high.

Record Task : Type := mkTask {
  id : string;
  title : string;
  description : nullable string;
  status : TaskStatus;
  priority : option Priority;
  createdAt : string;
  updatedAt : string;
  backendId : option Z;
  columnId : option Z;
  order : option Z
}.

Record BackendColumn : Type := mkBackendColumn {
  col_id : Z;
  col_title : string;
  col_order : Z;
  col_created_at : string
}.

Record BackendTask : Type := mkBackendTask {
  bt_id : Z;
  bt_title : string;
  bt_description : nullable string;   (* string | null *)
  bt_column_id : Z;
  bt_order : Z;
  bt_created_at : string
}.

Record CreateTaskRequest : Type := mkCreateTaskRequest {
  cr_title : string;
  cr_description : nullable string;
  cr_column_id : Z;
  cr_order : Z
}.

(** Every key is optional; [None] is an absent key. *)
Record UpdateTaskRequest : Type := mkUpdateTaskRequest {
  ur_title : option string;
  ur_description : option (nullable string);
  ur_order : option Z
}.

(** [Omit<Task, 'id' | 'createdAt' | 'updatedAt'>]. *)
Record TaskDraft : Type := mkTaskDraft {
  d_title : string;
  d_description : nullable string;
  d_status : TaskStatus;
  d_priority : option Priority;
  d_backendId : option Z;
  d_columnId : option Z;
  d_order : option Z
}.

(** [Partial<Task>]: every key optional. *)
Record TaskUpdates : Type := mkTaskUpdates {
  u_id : option string;
  u_title : option string;
  u_description : option (nullable string);
  u_status : option TaskStatus;
  u_priority : option Priority;
  u_createdAt : option string;
  u_updatedAt : option string;
  u_backendId : option Z;
  u_columnId : option Z;
  u_order : option Z
}.

(** Column ID to Status Mapping. *)
Definition COLUMN_STATUS_MAP : gmap Z TaskStatus :=
  <[1 := todo]> (<[2 := in_progress]> (<[3 := done]> ∅)).

Definition STATUS_COLUMN_MAP : gmap TaskStatus Z :=
  <[todo := 1]> (<[in_progress := 2]> (<[done := 3]> ∅)).

(* ===================================================================== *)
(** ** services/kanban.service.ts : data transformation utilities         *)
(* ===================================================================== *)

(** Convert backend task to frontend Task type. *)
Definition transformBackendTask (backendTask : BackendTask) : Task :=
  let status := default todo (COLUMN_STATUS_MAP !! bt_column_id backendTask) in
  {| id := pretty (bt_id backendTask);
     title := bt_title backendTask;
     description := or_undefined (bt_description backendTask);
     status := status;
     createdAt := bt_created_at backendTask;
     updatedAt := bt_created_at backendTask;
     backendId := Some (bt_id backendTask);
     columnId := Some (bt_column_id backendTask);
     order := Some (bt_order backendTask);
     priority := None |}.

(** Convert frontend Task to backend CreateTaskRequest. *)
Definition transformToCreateRequest (task : TaskDraft) (order : Z)
  : CreateTaskRequest :=
  let columnId := or_number (STATUS_COLUMN_MAP !! d_status task) 1 in
  {| cr_title := d_title task;
     cr_description := or_null (d_description task);
     cr_column_id := columnId;
     cr_order := order |}.

(** Convert frontend Task updates to backend UpdateTaskRequest. *)
Definition transformToUpdateRequest (updates : TaskUpdates) : UpdateTaskRequest :=
  {| ur_title := u_title updates;
     ur_description :=
       match u_description updates with
       | Some Undefined | None => None
       | Some d => Some (or_null d)
       end;
     ur_order := u_order updates |}.

(* ===================================================================== *)
(** ** lib/kanban-utils.ts                                                *)
(* ===================================================================== *)

Definition getTasksByStatus (tasks : list Task) (status0 : TaskStatus) : list Task :=
  filter (λ task, status task = status0) tasks.

(* ===================================================================== *)
(** ** The query cache (TanStack Query), as far as the hooks use it       *)
(* ===================================================================== *)

(** The entry stored under [kanbanKeys.tasks()]: its data ([undefined] until
    a fetch has filled it) and its invalidation flag. *)
Record QueryClient : Type := mkQueryClient {
  tasksData : option (list Task);
  tasksInvalidated : bool
}.

Definition getQueryData (queryClient : QueryClient) : option (list Task) :=
  tasksData queryClient.

(** [setQueryData] stores the value and marks the entry as fresh. *)
Definition setQueryData (value : list Task) (queryClient : QueryClient)
  : QueryClient :=
  {| tasksData := Some value; tasksInvalidated := false |}.

Definition invalidateQueries (queryClient : QueryClient) : QueryClient :=
  {| tasksData := tasksData queryClient; tasksInvalidated := true |}.

(** [cancelQueries] stops in-flight fetches; the stored entry is untouched. *)
Definition cancelQueries (queryClient : QueryClient) : QueryClient := queryClient.

(** Readings of the wall clock taken inside one handler: [Date.now()] and the
    successive [new Date().toISOString()] calls. *)
Record Clock : Type := mkClock {
  Date_now : Z;
  iso_first : string;
  iso_second : string
}.

(** What [onMutate] returns and [onError] receives. *)
Record MutationContext : Type := mkMutationContext {
  previousTasks : option (list Task)
}.

(* ===================================================================== *)
(** ** hooks/useKanbanQueries.ts : mutation hooks                         *)
(* ===================================================================== *)

(** [{ ...task, ...data, updatedAt }]: the keys present in [data] override. *)
Definition spread_update (task : Task) (data : UpdateTaskRequest) (iso : string)
  : Task :=
  {| id := id task;
     title := default (title task) (ur_title data);
     description := default (description task) (ur_description data);
     status := status task;
     priority := priority task;
     createdAt := createdAt task;
     updatedAt := iso;
     backendId := backendId task;
     columnId := columnId task;
     order := match ur_order data with
              | Some o => Some o
              | None => order task
              end |}.

(** [{ ...task, columnId: targetColumnId, order: newOrder, updatedAt }]. *)
Definition spread_move (task : Task) (targetColumnId newOrder : Z) (iso : string)
  : Task :=
  {| id := id task;
     title := title task;
     description := description task;
     status := status task;
     priority := priority task;
     createdAt := createdAt task;
     updatedAt := iso;
     backendId := backendId task;
     columnId := Some targetColumnId;
     order := Some newOrder |}.

(** The rollback shared, line for line, by the four hooks:
    [if (context?.previousTasks) setQueryData(tasks(), context.previousTasks)]. *)
Definition restore_previous (context : option MutationContext)
    (queryClient : QueryClient) : QueryClient :=
  match context with
  | Some ctx =>
      match previousTasks ctx with
      | Some previous => setQueryData previous queryClient
      | None => queryClient
      end
  | None => queryClient
  end.

Module useCreateTask.

Definition optimisticTask (newTask : CreateTaskRequest) (clock : Clock) : Task :=
  {| id := String.append "temp-" (pretty (Date_now clock));
     title := cr_title newTask;
     description := or_undefined (cr_description newTask);
     status := todo;                       (* Will be determined by column_id *)
     createdAt := iso_first clock;
     updatedAt := iso_second clock;
     columnId := Some (cr_column_id newTask);
     order := Some (cr_order newTask);
     backendId := None;
     priority := None |}.

Definition onMutate (newTask : CreateTaskRequest) (clock : Clock)
    (queryClient : QueryClient) : QueryClient * MutationContext :=
  let queryClient := cancelQueries queryClient in
  let previousTasks := getQueryData queryClient in
  let queryClient :=
    match previousTasks with
    | Some previous =>
        setQueryData (previous ++ [optimisticTask newTask clock]) queryClient
    | None => queryClient
    end in
  (queryClient, {| previousTasks := previousTasks |}).

Definition onError := restore_previous.
Definition onSuccess := invalidateQueries.

End useCreateTask.

Module useUpdateTask.

Definition onMutate (taskId : Z) (data : UpdateTaskRequest) (clock : Clock)
    (queryClient : QueryClient) : QueryClient * MutationContext :=
  let queryClient := cancelQueries queryClient in
  let previousTasks := getQueryData queryClient in
  let queryClient :=
    match previousTasks with
    | Some previous =>
        setQueryData
          ((λ task, if decide (backendId task = Some taskId)
                    then spread_update task data (iso_first clock)
                    else task) <$> previous)
          queryClient
    | None => queryClient
    end in
  (queryClient, {| previousTasks := previousTasks |}).

Definition onError := restore_previous.
Definition onSuccess := invalidateQueries.

End useUpdateTask.

Module useDeleteTask.

Definition onMutate (taskId : Z) (queryClient : QueryClient)
  : QueryClient * MutationContext :=
  let queryClient := cancelQueries queryClient in
  let previousTasks := getQueryData queryClient in
  let queryClient :=
    match previousTasks with
    | Some previous =>
        setQueryData (filter (λ task, backendId task ≠ Some taskId) previous)
                     queryClient
    | None => queryClient
    end in
  (queryClient, {| previousTasks := previousTasks |}).

Definition onError := restore_previous.
Definition onSuccess := invalidateQueries.

End useDeleteTask.

Module useMoveTask.

Definition onMutate (taskId targetColumnId newOrder : Z) (clock : Clock)
    (queryClient : QueryClient) : QueryClient * MutationContext :=
  let queryClient := cancelQueries queryClient in
  let previousTasks := getQueryData queryClient in
  let queryClient :=
    match previousTasks with
    | Some previous =>
        setQueryData
          ((λ task, if decide (backendId task = Some taskId)
                    then spread_move task targetColumnId newOrder (iso_first clock)
                    else task) <$> previous)
          queryClient
    | None => queryClient
    end in
  (queryClient, {| previousTasks := previousTasks |}).

Definition onError := restore_previous.
Definition onSuccess := invalidateQueries.

End useMoveTask.

(** The variables handed to [mutate], one constructor per hook; they are also
    the arguments of the [taskService] call made by [mutationFn]. *)
Inductive Mutation : Type :=
  | CreateTask (data : CreateTaskRequest)
  | UpdateTask (taskId : Z) (data : UpdateTaskRequest)
  | DeleteTask (taskId : Z)
  | MoveTask (taskId targetColumnId newOrder : Z).

Definition onMutate (m : Mutation) (clock : Clock) (queryClient : QueryClient)
  : QueryClient * MutationContext :=
  match m with
  | CreateTask data => useCreateTask.onMutate data clock queryClient
  | UpdateTask taskId data => useUpdateTask.onMutate taskId data clock queryClient
  | DeleteTask taskId => useDeleteTask.onMutate taskId queryClient
  | MoveTask taskId targetColumnId newOrder =>
      useMoveTask.onMutate taskId targetColumnId newOrder clock queryClient
  end.

Definition onError (m : Mutation) : option MutationContext → QueryClient → QueryClient :=
  match m with
  | CreateTask _ => useCreateTask.onError
  | UpdateTask _ _ => useUpdateTask.onError
  | DeleteTask _ => useDeleteTask.onError
  | MoveTask _ _ _ => useMoveTask.onError
  end.

Definition onSuccess (m : Mutation) : QueryClient → QueryClient :=
  match m with
  | CreateTask _ => useCreateTask.onSuccess
  | UpdateTask _ _ => useUpdateTask.onSuccess
  | DeleteTask _ => useDeleteTask.onSuccess
  | MoveTask _ _ _ => useMoveTask.onSuccess
  end.

(** How the remote call of a mutation can fail. *)
Inductive ApiFailure : Type :=
  | NetworkFailure
  | ServerRejected (http_status : Z).

Inductive Settlement : Type :=
  | Resolved
  | Rejected (err : ApiFailure).

(** The application state the hooks act on: the query cache, the mutation
    calls made to [taskService] so far (the arguments of each [mutationFn]
    call), and the lines written with [console.error] (the first argument of
    each call).  A refetch of the task list is not a request of this list: it
    is owed for as long as the cache entry is marked invalidated. *)
Record World : Type := mkWorld {
  client : QueryClient;
  requests : list Mutation;
  console : list string
}.

(** A mutation in flight: its variables and the context kept for [onError]. *)
Record Pending : Type := mkPending {
  variables : Mutation;
  context : MutationContext
}.

(** [mutation.mutate(variables)]: [onMutate] runs first, then [mutationFn]
    issues the request. *)
Definition mutate (m : Mutation) (clock : Clock) (w : World) : World * option Pending :=
  let '(queryClient, ctx) := onMutate m clock (client w) in
  ({| client := queryClient;
      requests := requests w ++ [m];
      console := console w |},
   Some {| variables := m; context := ctx |}).

(** What the response interceptor of the API client (lib/api.ts) writes with
    [console.error] for a failed request, before the failure reaches the
    hook: one line, except for a 401 response, which is handled without
    one. *)
Definition interceptor_log (err : ApiFailure) : list string :=
  match err with
  | NetworkFailure => ["Network error: No response from server"]
  | ServerRejected http_status =>
      if decide (http_status = 401) then []
      else if decide (http_status = 404) then ["Resource not found:"]
      else if decide (http_status = 422) then ["Validation error:"]
      else if decide (http_status = 500) then ["Server error:"]
      else ["API error:"]
  end.

(** The request settles.  On success [onSuccess] runs: the entry is marked
    invalidated, which is what makes the query client fetch the list again.
    On failure the interceptor has logged the error and [onError] runs. *)
Definition settle (outcome : Settlement) (p : Pending) (w : World) : World :=
  {| client :=
       match outcome with
       | Resolved => onSuccess (variables p) (client w)
       | Rejected _ => onError (variables p) (Some (context p)) (client w)
       end;
     requests := requests w;
     console :=
       match outcome with
       | Resolved => console w
       | Rejected err => console w ++ interceptor_log err
       end |}.

(* ===================================================================== *)
(** ** hooks/useKanban.ts                                                 *)
(* ===================================================================== *)

Module useKanban.

(** [const { data: tasks = [] } = useTasks()]. *)
Definition tasks (w : World) : list Task :=
  default [] (tasksData (client w)).

(** [console.error('Task not found or missing backend ID'); return]. *)
Definition NotSynced : string := "Task not found or missing backend ID".

Definition reject (w : World) : World * option Pending :=
  ({| client := client w;
      requests := requests w;
      console := console w ++ [NotSynced] |},
   None).

(** [tasks.find((t) => t.id === taskId)] followed by the guard
    [if (!task || !task.backendId)]: the backend id when the guard passes. *)
Definition synced_backend_id (taskId : string) (w : World) : option Z :=
  match List.find (λ t, bool_decide (id t = taskId)) (tasks w) with
  | Some task =>
      match backendId task with
      | Some b => if truthy_number b then Some b else None
      | None => None
      end
  | None => None
  end.

(** Move a task to a new status/column. *)
Definition moveTask (taskId : string) (newStatus : TaskStatus) (clock : Clock)
    (w : World) : World * option Pending :=
  match synced_backend_id taskId w with
  | None => reject w
  | Some task_backendId =>
      (* the table is total over [TaskStatus]: the lookup is always defined *)
      let targetColumnId := default 0 (STATUS_COLUMN_MAP !! newStatus) in
      let tasksInTargetColumn := filter (λ t, status t = newStatus) (tasks w) in
      let newOrder := Z.of_nat (length tasksInTargetColumn) in
      mutate (MoveTask task_backendId targetColumnId newOrder) clock w
  end.

(** Add a new task. *)
Definition addTask (task : TaskDraft) (clock : Clock) (w : World)
  : World * option Pending :=
  let tasksInColumn := filter (λ t, status t = d_status task) (tasks w) in
  let order := Z.of_nat (length tasksInColumn) in
  let createRequest := transformToCreateRequest task order in
  mutate (CreateTask createRequest) clock w.

(** Delete a task. *)
Definition deleteTask (taskId : string) (clock : Clock) (w : World)
  : World * option Pending :=
  match synced_backend_id taskId w with
  | None => reject w
  | Some task_backendId => mutate (DeleteTask task_backendId) clock w
  end.

(** Update a task. *)
Definition updateTask (taskId : string) (updates : TaskUpdates) (clock : Clock)
    (w : World) : World * option Pending :=
  match synced_backend_id taskId w with
  | None => reject w
  | Some task_backendId =>
      let updateRequest := transformToUpdateRequest updates in
      mutate (UpdateTask task_backendId updateRequest) clock w
  end.

(** Get tasks by status (memoized). *)
Definition getTasksByStatusMemo (w : World) (status0 : TaskStatus) : list Task :=
  getTasksByStatus (tasks w) status0.

End useKanban.

(** A whole mutation whose request is rejected: the hook call, then the
    failure handler once the request has settled. *)
Definition fail_after (r : World * option Pending) (err : ApiFailure) : World :=
  match r with
  | (w, Some p) => settle (Rejected err) p w
  | (w, None) => w
  end.

(* ===================================================================== *)
(** ** lib/validations/task-schema.ts  (Zod 3 string schemas)             *)
(* ===================================================================== *)

(** The checks of a [z.string()] schema, kept in the order the chain adds
    them; [ZodString._parse] walks them in that order over the same datum. *)
Inductive ZodStringCheck : Type :=
  | zod_min (value : nat) (message : string)
  | zod_max (value : nat) (message : string)
  | zod_trim.

(** White space removed by [String.prototype.trim] within U+0000..U+00FF:
    TAB, LF, VT, FF, CR, SPACE and NBSP. *)
Definition is_white_space (c : ascii) : bool :=
  let n := nat_of_ascii c in
  ((9 <=? n) && (n <=? 13) || (n =? 32) || (n =? 160))%nat.

Fixpoint trimStart (s : string) : string :=
  match s with
  | EmptyString => EmptyString
  | String c rest => if is_white_space c then trimStart rest else s
  end.

Fixpoint trimEnd (s : string) : string :=
  match s with
  | EmptyString => EmptyString
  | String c rest =>
      match trimEnd rest with
      | EmptyString => if is_white_space c then EmptyString else String c EmptyString
      | kept => String c kept
      end
  end.

Definition trim (s : string) : string := trimEnd (trimStart s).

(** One pass over the checks: issues are collected, [trim] rewrites the
    datum seen by the checks that follow it. *)
Fixpoint ZodString_parse (checks : list ZodStringCheck) (data : string)
    (issues : list string) : list string * string :=
  match checks with
  | [] => (issues, data)
  | zod_min value message :: rest =>
      ZodString_parse rest data
        (if (String.length data <? value)%nat then issues ++ [message] else issues)
  | zod_max value message :: rest =>
      ZodString_parse rest data
        (if (value <? String.length data)%nat then issues ++ [message] else issues)
  | zod_trim :: rest => ZodString_parse rest (trim data) issues
  end.

Record TaskCreateFormValues : Type := mkTaskCreateFormValues {
  f_title : string;
  f_description : option string;
  f_status : TaskStatus
}.

Module taskCreateSchema.

(** [z.string().min(3, ..).max(200, ..).trim()]. *)
Definition title : list ZodStringCheck :=
  [ zod_min 3 "Title must be at least 3 characters";
    zod_max 200 "Title must not exceed 200 characters";
    zod_trim ].

(** [z.string().trim().optional().or(z.literal(''))]. *)
Definition description : list ZodStringCheck := [ zod_trim ].

(** [safeParse]: the issues, or the parsed values. *)
Definition safeParse (input : TaskCreateFormValues)
  : list string + TaskCreateFormValues :=
  let '(title_issues, title_out) := ZodString_parse title (f_title input) [] in
  let '(description_issues, description_out) :=
    match f_description input with
    | Some d =>
        let '(i, o) := ZodString_parse description d [] in (i, Some o)
    | None => ([], None)
    end in
  match title_issues ++ description_issues with
  | [] => inr {| f_title := title_out;
                 f_description := description_out;
                 f_status := f_status input |}
  | issues => inl issues
  end.

End taskCreateSchema.

Definition getDefaultTaskFormValues (status0 : TaskStatus) : TaskCreateFormValues :=
  {| f_title := ""; f_description := Some ""; f_status := status0 |}.

(* ===================================================================== *)
(** ** components/kanban/TaskCreateForm.tsx                               *)
(* ===================================================================== *)

Module TaskCreateForm.

Inductive SubmitResult : Type :=
  | ValidationFailure (errors : list string)
  | Submitted (inflight : option Pending).

(** Handle form submission. *)
Definition onSubmit (data : TaskCreateFormValues) (clock : Clock) (w : World)
  : World * option Pending :=
  useKanban.addTask
    {| d_title := f_title data;
       d_description :=
         or_undefined (match f_description data with
                       | Some d => Val d
                       | None => Undefined
                       end);
       d_status := f_status data;
       d_priority := None;
       d_backendId := None;
       d_columnId := None;
       d_order := None |}
    clock w.

(** [form.handleSubmit(onSubmit)] with the [zodResolver]: [onSubmit] runs
    on the parsed values, and only when the schema reports no issue. *)
Definition handleSubmit (values : TaskCreateFormValues) (clock : Clock)
    (w : World) : World * SubmitResult :=
  match taskCreateSchema.safeParse values with
  | inl errors => (w, ValidationFailure errors)
  | inr data =>
      let '(w', p) := onSubmit data clock w in (w', Submitted p)
  end.

End TaskCreateForm.

(* ===================================================================== *)
(** ** components/kanban/KanbanBoard.tsx                                  *)
(* ===================================================================== *)

Module KanbanBoard.

(** Stable insertion by [order], as [Array.prototype.sort] with the
    comparator [(a, b) => a.order - b.order]. *)
Fixpoint insert_by_order (c : BackendColumn) (cs : list BackendColumn)
  : list BackendColumn :=
  match cs with
  | [] => [c]
  | c' :: rest =>
      if (col_order c' <=? col_order c)%Z
      then c' :: insert_by_order c rest
      else c :: cs
  end.

Definition sort_by_order (cs : list BackendColumn) : list BackendColumn :=
  fold_left (λ acc c, insert_by_order c acc) cs [].

(** Transform backend columns to TaskStatus array, sorted by order. *)
Definition columns (backendColumns : list BackendColumn) : list TaskStatus :=
  omap (λ col, COLUMN_STATUS_MAP !! col_id col) (sort_by_order backendColumns).

Record DragStartEvent : Type := mkDragStartEvent {
  start_active_id : string
}.

Record DragEndEvent : Type := mkDragEndEvent {
  active_id : string;
  over_id : option string       (* [over] is null outside any droppable *)
}.

(** The component state and the application state around it. *)
Record Board : Type := mkBoard {
  world : World;
  backendColumns : list BackendColumn;
  activeTask : option Task
}.

Definition handleDragStart (event : DragStartEvent) (b : Board) : Board :=
  let task := List.find (λ t, bool_decide (id t = start_active_id event))
                        (useKanban.tasks (world b)) in
  {| world := world b; backendColumns := backendColumns b; activeTask := task |}.

Definition handleDragEnd (event : DragEndEvent) (clock : Clock) (b : Board)
  : Board * option Pending :=
  match over_id event with
  | None =>
      ({| world := world b; backendColumns := backendColumns b;
          activeTask := None |}, None)
  | Some over =>
      let taskId := active_id event in
      (* Check if the drop target is a valid column *)
      match status_of_literal over with
      | Some newStatus =>
          if bool_decide (newStatus ∈ columns (backendColumns b)) then
            let '(w, p) := useKanban.moveTask taskId newStatus clock (world b) in
            ({| world := w; backendColumns := backendColumns b;
                activeTask := None |}, p)
          else
            ({| world := world b; backendColumns := backendColumns b;
                activeTask := None |}, None)
      | None =>
          ({| world := world b; backendColumns := backendColumns b;
              activeTask := None |}, None)
      end
  end.

End KanbanBoard.

(** The [queryFn] of [useTasks]: fetch all tasks and transform to frontend
    format. *)
Definition useTasks_queryFn (backendTasks : list BackendTask) : list Task :=
  transformBackendTask <$> backendTasks.

(* ===================================================================== *)
(** ** Notions used by the statements, and sample data                    *)
(* ===================================================================== *)

(** Ascending [order] along a list; a missing [order] constrains nothing. *)
Definition order_le (a b : Task) : Prop :=
  match order a, order b with
  | Some x, Some y => (x ≤ y)%Z
  | _, _ => True
  end.

Definition ascending_by_order (l : list Task) : Prop :=
  ∀ (i j : nat) (a b : Task),
    (i < j)%nat → l !! i = Some a → l !! j = Some b → order_le a b.

Module Samples.

Definition clock : Clock :=
  {| Date_now := 1730000000000;
     iso_first := "2024-10-27T03:33:20.000Z";
     iso_second := "2024-10-27T03:33:20.000Z" |}.

Definition backend (n : Z) (column ord : Z) : BackendTask :=
  {| bt_id := n; bt_title := "Task"; bt_description := Null;
     bt_column_id := column; bt_order := ord;
     bt_created_at := "2024-01-01T00:00:00Z" |}.

Definition loaded (backendTasks : list BackendTask) : World :=
  {| client := {| tasksData := Some (useTasks_queryFn backendTasks);
                  tasksInvalidated := false |};
     requests := [];
     console := [] |}.

(** Nothing fetched yet: the cache entry holds no list. *)
Definition unloaded : World :=
  {| client := {| tasksData := None; tasksInvalidated := false |};
     requests := [];
     console := [] |}.

Definition draft (s : TaskStatus) : TaskDraft :=
  {| d_title := "Write report"; d_description := Undefined; d_status := s;
     d_priority := None; d_backendId := None; d_columnId := None;
     d_order := None |}.

End Samples.

(** The creation contract read without a condition on the cache: whatever
    the cache holds, a synthetic task for the draft is found in it after
    [addTask]. *)
Definition synthetic_task_cached (task : TaskDraft) (clock : Clock) (w : World)
  : Prop :=
  ∃ cached t,
    tasksData (client (useKanban.addTask task clock w).1) = Some cached ∧
    t ∈ cached ∧
    id t = String.append "temp-" (pretty (Date_now clock)) ∧
    columnId t = STATUS_COLUMN_MAP !! d_status task ∧
    order t = Some (Z.of_nat (length (getTasksByStatus (useKanban.tasks w)
                                                      (d_status task)))).

(** The optimistic edit of a move, as written into the cache. *)
Definition moved_cache (b target newOrder : Z) (clock : Clock) (cached : list Task)
  : list Task :=
  (λ t, if decide (backendId t = Some b)
        then spread_move t target newOrder (iso_first clock)
        else t) <$> cached.

(* ===================================================================== *)
(** ** hooks/useKanbanQueries.ts : query keys                             *)
(* ===================================================================== *)

(** One element of a query key: a string or a number. *)
Inductive KeyPart : Type :=
  | KeyText (s : string)
  | KeyNumber (n : Z).

Module kanbanKeys.

Definition all : list KeyPart := [KeyText "kanban"].
Definition columns : list KeyPart := all ++ [KeyText "columns"].
Definition column (id0 : Z) : list KeyPart := columns ++ [KeyNumber id0].
Definition tasks : list KeyPart := all ++ [KeyText "tasks"].
Definition task (id0 : Z) : list KeyPart := tasks ++ [KeyNumber id0].
Definition tasksByColumn (columnId0 : Z) : list KeyPart :=
  tasks ++ [KeyText "column"; KeyNumber columnId0].

End kanbanKeys.

(** A query filter [{ queryKey }] selects the queries whose key starts with
    the filter's key (the matching of [invalidateQueries] and
    [cancelQueries]). *)
Definition matches_filter (filterKey key : list KeyPart) : Prop :=
  filterKey `prefix_of` key.

(* ===================================================================== *)
(** ** lib/api.ts : the interceptors of the Axios client                  *)
(* ===================================================================== *)

Module apiClient.

(** [localStorage] and the headers of a request, both keyed by strings. *)
Record Browser : Type := mkBrowser {
  localStorage : gmap string string;
  errors_logged : list (string * option string)   (* console.error(label, detail) *)
}.

Record ResponseData : Type := mkResponseData {
  data_message : option string;
  data_text : string                   (* the body as the console prints it *)
}.

Record ErrorResponse : Type := mkErrorResponse {
  response_status : Z;
  response_data : option ResponseData
}.

Record AxiosError : Type := mkAxiosError {
  error_message : string;
  error_response : option ErrorResponse;
  error_request : bool                  (* a request object is attached *)
}.

(** Request interceptor: add auth token if available. *)
Definition onRequest (browser : Browser) (headers : gmap string string)
  : gmap string string :=
  match localStorage browser !! "authToken" with
  | Some token =>
      if String.eqb token "" then headers
      else <["Authorization" := String.append "Bearer " token]> headers
  | None => headers
  end.

(** [error.response.data?.message || error.message]. *)
Definition response_message (error : AxiosError) (response : ErrorResponse)
  : string :=
  match response_data response with
  | Some data =>
      match data_message data with
      | Some m => if String.eqb m "" then error_message error else m
      | None => error_message error
      end
  | None => error_message error
  end.

Definition log (label : string) (detail : option string) (browser : Browser)
  : Browser :=
  {| localStorage := localStorage browser;
     errors_logged := errors_logged browser ++ [(label, detail)] |}.

(** Response interceptor, failure branch; the error itself is rejected
    again unchanged. *)
Definition onResponseError (error : AxiosError) (browser : Browser) : Browser :=
  match error_response error with
  | Some response =>
      let message := response_message error response in
      if decide (response_status response = 401) then
        {| localStorage := delete "authToken" (localStorage browser);
           errors_logged := errors_logged browser |}
      else if decide (response_status response = 404) then
        log "Resource not found:" (Some message) browser
      else if decide (response_status response = 422) then
        log "Validation error:" (data_text <$> response_data response) browser
      else if decide (response_status response = 500) then
        log "Server error:" (Some message) browser
      else
        log "API error:" (Some message) browser
  | None =>
      if error_request error then
        log "Network error: No response from server" None browser
      else
        log "Request error:" (Some (error_message error)) browser
  end.

End apiClient.

(** The Axios error behind a failed mutation request: no response for a
    network failure, a response with the status for a rejection. *)
Definition axios_error_of (err : ApiFailure) (message : string)
    (data : option apiClient.ResponseData) : apiClient.AxiosError :=
  match err with
  | NetworkFailure =>
      {| apiClient.error_message := message;
         apiClient.error_response := None;
         apiClient.error_request := true |}
  | ServerRejected http_status =>
      {| apiClient.error_message := message;
         apiClient.error_response :=
           Some {| apiClient.response_status := http_status;
                   apiClient.response_data := data |};
         apiClient.error_request := true |}
  end.

(* ===================================================================== *)
(** ** getErrorMessage                                                    *)
(* ===================================================================== *)

(** What a [catch] can receive, as far as [getErrorMessage] looks at it. *)
Record ErrorShape : Type := mkErrorShape {
  shape_response_message : option string;   (* err.response?.data?.message *)
  shape_response_status : option Z;         (* err.response?.status *)
  shape_code : option string                (* err.code *)
}.

Inductive Thrown : Type :=
  | ThrownError (message : string) (shape : ErrorShape)   (* instanceof Error *)
  | ThrownObject (shape : ErrorShape)                     (* another object *)
  | ThrownOther.                                          (* not an object, or null *)

Definition getErrorMessage (error : Thrown) : string :=
  match error with
  | ThrownError message _ => message
  | ThrownObject err =>
      let by_status_or_code :=
        if decide (shape_response_status err = Some 404)
        then "Resource not found"
        else if decide (shape_response_status err = Some 422)
        then "Invalid data provided"
        else if decide (shape_response_status err = Some 500)
        then "Server error. Please try again later."
        else if decide (shape_code err = Some "ECONNABORTED")
        then "Request timeout. Please check your connection."
        else if decide (shape_code err = Some "ERR_NETWORK")
        then "Network error. Please check your connection."
        else "An unexpected error occurred" in
      match shape_response_message err with
      | Some m => if String.eqb m "" then by_status_or_code else m
      | None => by_status_or_code
      end
  | ThrownOther => "An unexpected error occurred"
  end.

(* ===================================================================== *)
(** ** AddTaskButton, TaskCreateDialog and the form they hold             *)
(* ===================================================================== *)

Module TaskCreateDialog.

(** The button's [dialogOpen] state, the values typed into the form and the
    validation messages shown under its fields. *)
Record Dialog : Type := mkDialog {
  dialogOpen : bool;
  values : TaskCreateFormValues;
  shown_errors : list string
}.

(** [onClick={() => setDialogOpen(true)}]. *)
Definition openDialog (d : Dialog) : Dialog :=
  {| dialogOpen := true; values := values d; shown_errors := shown_errors d |}.

(** [handleSuccess] and [handleCancel] both call [onOpenChange(false)]. *)
Definition handleSuccess (d : Dialog) : Dialog :=
  {| dialogOpen := false; values := values d; shown_errors := shown_errors d |}.

Definition handleCancel (d : Dialog) : Dialog :=
  {| dialogOpen := false; values := values d; shown_errors := shown_errors d |}.

(** Pressing the submit button of the form for column [status0]: when the
    schema accepts, [onSubmit] calls [addTask], then [form.reset()] and
    [onSuccess()]; otherwise the messages are shown and nothing else runs. *)
Definition submit (status0 : TaskStatus) (clock : Clock) (w : World) (d : Dialog)
  : World * Dialog * option Pending :=
  match TaskCreateForm.handleSubmit (values d) clock w with
  | (w', TaskCreateForm.ValidationFailure errors) =>
      (w', {| dialogOpen := dialogOpen d; values := values d;
              shown_errors := errors |}, None)
  | (w', TaskCreateForm.Submitted p) =>
      (w', handleSuccess {| dialogOpen := dialogOpen d;
                            values := getDefaultTaskFormValues status0;
                            shown_errors := [] |}, p)
  end.

End TaskCreateDialog.

(** The outcome of a hook call stopped by its guard, seen from the state [w]
    it was made in: nothing in flight, cache and requests as they were, one
    more [console.error] line. *)
Definition refused (r : World * option Pending) (w : World) : Prop :=
  r.2 = None ∧
  client r.1 = client w ∧
  requests r.1 = requests w ∧
  console r.1 = console w ++ [useKanban.NotSynced].

(** The optimistic edit each hook applies to a cached list, read off its
    [onMutate]. *)
Definition optimistic_edit (m : Mutation) (clock : Clock) (cached : list Task)
  : list Task :=
  match m with
  | CreateTask data => cached ++ [useCreateTask.optimisticTask data clock]
  | UpdateTask taskId data =>
      (λ t, if decide (backendId t = Some taskId)
            then spread_update t data (iso_first clock) else t) <$> cached
  | DeleteTask taskId => filter (λ t, backendId t ≠ Some taskId) cached
  | MoveTask taskId targetColumnId newOrder =>
      moved_cache taskId targetColumnId newOrder clock cached
  end.

(** A task with a new [updatedAt] stamp and nothing else changed. *)
Definition with_updatedAt (t : Task) (iso : string) : Task :=
  {| id := id t; title := title t; description := description t;
     status := status t; priority := priority t; createdAt := createdAt t;
     updatedAt := iso; backendId := backendId t; columnId := columnId t;
     order := order t |}.

(* ===================================================================== *)
(** * Properties                                                          *)
(* ===================================================================== *)

(** ** The two lookup tables *)

Lemma STATUS_COLUMN_MAP_total (s : TaskStatus) :
  STATUS_COLUMN_MAP !! s = Some (match s with todo => 1 | in_progress => 2 | done => 3 end).
Proof. destruct s; reflexivity. Qed.

Lemma COLUMN_STATUS_MAP_lookup (c : Z) :
  COLUMN_STATUS_MAP !! c =
    if decide (c = 1) then Some todo
    else if decide (c = 2) then Some in_progress
    else if decide (c = 3) then Some done
    else None.
Proof.
  unfold COLUMN_STATUS_MAP.
  repeat case_decide; subst; simplify_map_eq; reflexivity.
Qed.

(** C8. The two tables are inverse to each other: every status is sent to a
    column id that the column table sends back to it, and every column id
    among 1, 2, 3 is sent to a status that the status table sends back to
    that id. *)
Theorem column_status_tables_bijective (s : TaskStatus) (c : Z)
    (Hc : c ∈ [1; 2; 3]) :
  (∃ c', STATUS_COLUMN_MAP !! s = Some c' ∧ c' ∈ [1; 2; 3] ∧
         COLUMN_STATUS_MAP !! c' = Some s) ∧
  (∃ s', COLUMN_STATUS_MAP !! c = Some s' ∧ STATUS_COLUMN_MAP !! s' = Some c).
Proof.
  split.
  - rewrite STATUS_COLUMN_MAP_total.
    destruct s; eexists; (split; [reflexivity|]); split;
      try reflexivity; apply list_elem_of_In; simpl; tauto.
  - rewrite COLUMN_STATUS_MAP_lookup.
    repeat case_decide; subst.
    + exists todo. split; reflexivity.
    + exists in_progress. split; reflexivity.
    + exists done. split; reflexivity.
    + exfalso. apply list_elem_of_In in Hc. simpl in Hc. intuition congruence.
Qed.

Lemma column_status_tables_bijective_witness :
  (2 : Z) ∈ [1; 2; 3] ∧
  ((∃ c', STATUS_COLUMN_MAP !! in_progress = Some c' ∧ c' ∈ [1; 2; 3] ∧
          COLUMN_STATUS_MAP !! c' = Some in_progress) ∧
   (∃ s', COLUMN_STATUS_MAP !! 2 = Some s' ∧ STATUS_COLUMN_MAP !! s' = Some 2)).
Proof.
  assert (H : (2 : Z) ∈ [1; 2; 3]) by (apply list_elem_of_In; simpl; tauto).
  split; [exact H | exact (column_status_tables_bijective in_progress 2 H)].
Defined.

(** ** Backend records seen through the transformation *)

(** C10. A task built from a backend record has the record's creation time
    as its update time and no priority; this holds for every task of a
    fetched task list. *)
Theorem transformBackendTask_updatedAt_priority (backendTask : BackendTask)
    (backendTasks : list BackendTask) :
  updatedAt (transformBackendTask backendTask) = bt_created_at backendTask ∧
  priority (transformBackendTask backendTask) = None ∧
  Forall (λ t, updatedAt t = createdAt t ∧ priority t = None)
         (useTasks_queryFn backendTasks).
Proof.
  split; [reflexivity|]. split; [reflexivity|].
  unfold useTasks_queryFn.
  induction backendTasks as [|b rest IH]; simpl.
  - constructor.
  - constructor; [split; reflexivity | exact IH].
Qed.

(** ** Rollback *)

Lemma onMutate_snapshot (m : Mutation) (clock : Clock) (qc : QueryClient) :
  previousTasks (onMutate m clock qc).2 = tasksData qc.
Proof. destruct m; reflexivity. Qed.

(** When no list was cached, [onMutate] leaves the cache alone. *)
Lemma onMutate_unloaded (m : Mutation) (clock : Clock) (qc : QueryClient) :
  tasksData qc = None → (onMutate m clock qc).1 = qc.
Proof.
  intros H. destruct m; simpl;
    unfold useCreateTask.onMutate, useUpdateTask.onMutate,
           useDeleteTask.onMutate, useMoveTask.onMutate,
           getQueryData, cancelQueries; rewrite H; reflexivity.
Qed.

Lemma onError_restore (m : Mutation) (ctx : MutationContext) (qc : QueryClient) :
  onError m (Some ctx) qc = restore_previous (Some ctx) qc.
Proof. destruct m; reflexivity. Qed.

(** A recorded snapshot is written back whatever the cache holds by then. *)
Lemma restore_previous_loaded (previous : list Task) (qc : QueryClient) :
  tasksData (restore_previous (Some {| previousTasks := Some previous |}) qc)
  = Some previous.
Proof. reflexivity. Qed.

Lemma rollback_tasksData (m : Mutation) (clock : Clock) (qc : QueryClient) :
  tasksData (onError m (Some (onMutate m clock qc).2) (onMutate m clock qc).1)
  = tasksData qc.
Proof.
  rewrite onError_restore.
  destruct (tasksData qc) as [previous|] eqn:Hdata.
  - pose proof (onMutate_snapshot m clock qc) as Hs. rewrite Hdata in Hs.
    destruct (onMutate m clock qc) as [edited [prev]]; simpl in *.
    subst prev. reflexivity.
  - rewrite (onMutate_unloaded m clock qc Hdata).
    pose proof (onMutate_snapshot m clock qc) as Hs. rewrite Hdata in Hs.
    destruct (onMutate m clock qc) as [edited [prev]]; simpl in *.
    subst prev. simpl. exact Hdata.
Qed.

Lemma mutate_rollback_tasksData (m : Mutation) (clock : Clock)
    (err : ApiFailure) (w : World) :
  ∃ p, (mutate m clock w).2 = Some p ∧
       tasksData (client (settle (Rejected err) p (mutate m clock w).1))
       = tasksData (client w).
Proof.
  unfold mutate.
  pose proof (rollback_tasksData m clock (client w)) as Hback.
  destruct (onMutate m clock (client w)) as [edited ctx]; simpl in *.
  eexists; split; [reflexivity|]. exact Hback.
Qed.

(** C1. For each of the four mutations, the context kept by [onMutate] holds
    the cached task list as it was before the optimistic edit, and once the
    request has failed and [onError] has run, the cached task list equals
    that snapshot. *)
Theorem failed_mutation_restores_snapshot (m : Mutation) (clock : Clock)
    (err : ApiFailure) (w : World) :
  ∃ p, (mutate m clock w).2 = Some p ∧
       variables p = m ∧
       previousTasks (context p) = tasksData (client w) ∧
       tasksData (client (settle (Rejected err) p (mutate m clock w).1))
       = previousTasks (context p).
Proof.
  unfold mutate.
  pose proof (onMutate_snapshot m clock (client w)) as Hsnap.
  pose proof (rollback_tasksData m clock (client w)) as Hback.
  destruct (onMutate m clock (client w)) as [edited ctx]; simpl in *.
  eexists; split; [reflexivity|]. simpl. rewrite Hsnap. auto.
Qed.

(** The same at the level of the hook: whichever of the four operations is
    called, and whether or not its guard lets it through, a rejected request
    leaves the cached task list as it was before the call. *)
Lemma mutate_then_failure (m : Mutation) (clock : Clock) (err : ApiFailure)
    (w : World) :
  tasksData (client (fail_after (mutate m clock w) err)) = tasksData (client w).
Proof.
  destruct (mutate_rollback_tasksData m clock err w) as (p & Hp & Hback).
  destruct (mutate m clock w) as [w1 q]; simpl in *. subst q. exact Hback.
Qed.

Lemma useKanban_failure_keeps_cache (clock : Clock) (err : ApiFailure) (w : World)
    (taskId : string) (newStatus : TaskStatus) (task : TaskDraft)
    (updates : TaskUpdates) :
  tasksData (client (fail_after (useKanban.moveTask taskId newStatus clock w) err))
  = tasksData (client w) ∧
  tasksData (client (fail_after (useKanban.addTask task clock w) err))
  = tasksData (client w) ∧
  tasksData (client (fail_after (useKanban.deleteTask taskId clock w) err))
  = tasksData (client w) ∧
  tasksData (client (fail_after (useKanban.updateTask taskId updates clock w) err))
  = tasksData (client w).
Proof.
  unfold useKanban.moveTask, useKanban.addTask, useKanban.deleteTask,
         useKanban.updateTask.
  destruct (useKanban.synced_backend_id taskId w);
    repeat split; try apply mutate_then_failure; reflexivity.
Qed.

(** ** The board view-model *)

Lemma getTasksByStatus_elem (tasks0 : list Task) (s : TaskStatus) (t : Task) :
  t ∈ getTasksByStatus tasks0 s ↔ t ∈ tasks0 ∧ status t = s.
Proof. unfold getTasksByStatus. rewrite list_elem_of_filter. tauto. Qed.

(** Every cached task sits in the list of exactly one status. *)
Lemma task_in_one_status_list (tasks0 : list Task) (t : Task) (s : TaskStatus) :
  t ∈ tasks0 → (t ∈ getTasksByStatus tasks0 s ↔ s = status t).
Proof. intros Hin. rewrite getTasksByStatus_elem. split; [intros [_ H]|]; auto. Qed.

(** The three status lists split the cache: together they hold each cached
    task once. *)
Lemma status_lists_partition (tasks0 : list Task) :
  getTasksByStatus tasks0 todo ++ getTasksByStatus tasks0 in_progress
    ++ getTasksByStatus tasks0 done ≡ₚ tasks0.
Proof.
  unfold getTasksByStatus.
  induction tasks0 as [|t rest IH]; [reflexivity|].
  rewrite !filter_cons.
  destruct (status t) eqn:Hst; repeat case_decide; try congruence; simpl.
  - constructor. exact IH.
  - rewrite <- Permutation_middle. constructor. exact IH.
  - rewrite app_assoc, <- Permutation_middle, <- app_assoc.
    constructor. exact IH.
Qed.

(** Two ways in which a status list is not ascending by [order]: the store
    returns the todo tasks with orders 1 then 0 and the view-model keeps that
    sequence; and after a fetch in ascending order, dropping the first todo
    task on its own column gives it order 2 in place, ahead of order 1. *)
Lemma getTasksByStatus_not_sorted :
  let cached := useTasks_queryFn [Samples.backend 11 1 1; Samples.backend 12 1 0] in
  let w := Samples.loaded [Samples.backend 7 1 0; Samples.backend 8 1 1] in
  let w1 := (useKanban.moveTask "7" todo Samples.clock w).1 in
  getTasksByStatus cached todo = cached ∧
  ¬ ascending_by_order (getTasksByStatus cached todo) ∧
  ascending_by_order (useKanban.getTasksByStatusMemo w todo) ∧
  order <$> useKanban.getTasksByStatusMemo w1 todo = [Some 2; Some 1] ∧
  ¬ ascending_by_order (useKanban.getTasksByStatusMemo w1 todo).
Proof.
  split; [reflexivity|]. split; [|split; [|split; [reflexivity|]]].
  - intros Hsorted.
    specialize (Hsorted 0%nat 1%nat _ _ (Nat.lt_0_1) eq_refl eq_refl).
    unfold order_le in Hsorted. simpl in Hsorted. lia.
  - intros i j a b Hij Ha Hb.
    destruct i as [|[|i]], j as [|[|j]]; try lia;
      vm_compute in Ha, Hb; try discriminate;
      injection Ha as <-; injection Hb as <-; unfold order_le; simpl; lia.
  - intros Hsorted.
    specialize (Hsorted 0%nat 1%nat _ _ (Nat.lt_0_1) eq_refl eq_refl).
    assert (Hle : (2 ≤ 1)%Z) by exact Hsorted.
    lia.
Qed.

(** C4 (amended). For every status, the view-model yields exactly the cached
    tasks whose [status] field is that status, in the sequence in which the
    cache holds them (the three lists together hold each cached task once);
    for a fetched task the [status] field is the image of its column id in
    the column table, or [todo] when it has none. *)
Theorem getTasksByStatus_is_cache_order_filter (w : World) (s : TaskStatus)
    (backendTask : BackendTask) :
  (∀ t, t ∈ useKanban.getTasksByStatusMemo w s ↔
        t ∈ useKanban.tasks w ∧ status t = s) ∧
  useKanban.getTasksByStatusMemo w s `sublist_of` useKanban.tasks w ∧
  useKanban.getTasksByStatusMemo w todo
    ++ useKanban.getTasksByStatusMemo w in_progress
    ++ useKanban.getTasksByStatusMemo w done ≡ₚ useKanban.tasks w ∧
  status (transformBackendTask backendTask)
  = default todo (COLUMN_STATUS_MAP !! bt_column_id backendTask).
Proof.
  split; [|split; [|split]].
  - intros t. apply getTasksByStatus_elem.
  - apply sublist_filter.
  - apply status_lists_partition.
  - reflexivity.
Qed.

(** A backend task in column 9, which the column table does not know, is
    listed under [todo]. *)
Lemma unknown_column_task_is_listed :
  let stray := Samples.backend 8 9 0 in
  COLUMN_STATUS_MAP !! bt_column_id stray = None ∧
  ¬ (∀ s, transformBackendTask stray ∉ getTasksByStatus (useTasks_queryFn [stray]) s).
Proof.
  split; [reflexivity|].
  intros Hnone. apply (Hnone todo).
  apply getTasksByStatus_elem. split; [|reflexivity].
  apply list_elem_of_singleton. reflexivity.
Qed.

(** C3 (amended). A fetched task whose column id has no entry in the column
    table receives the status [todo]: the view-model lists it under [todo]
    and under no other status. *)
Theorem unknown_column_task_listed_under_todo (backendTask : BackendTask)
    (backendTasks : list BackendTask) (s : TaskStatus)
    (Hunknown : COLUMN_STATUS_MAP !! bt_column_id backendTask = None)
    (Hfetched : backendTask ∈ backendTasks) :
  status (transformBackendTask backendTask) = todo ∧
  (transformBackendTask backendTask
     ∈ getTasksByStatus (useTasks_queryFn backendTasks) s ↔ s = todo).
Proof.
  assert (Hst : status (transformBackendTask backendTask) = todo).
  { unfold transformBackendTask. simpl. rewrite Hunknown. reflexivity. }
  split; [exact Hst|].
  rewrite task_in_one_status_list.
  - rewrite Hst. tauto.
  - unfold useTasks_queryFn. apply list_elem_of_fmap_2. exact Hfetched.
Qed.

Lemma unknown_column_task_listed_under_todo_witness :
  let stray := Samples.backend 8 9 0 in
  COLUMN_STATUS_MAP !! bt_column_id stray = None ∧
  stray ∈ [stray] ∧
  (transformBackendTask stray ∈ getTasksByStatus (useTasks_queryFn [stray]) done
   ↔ done = todo).
Proof.
  assert (Hin : Samples.backend 8 9 0 ∈ [Samples.backend 8 9 0])
    by (apply list_elem_of_singleton; reflexivity).
  split; [reflexivity|]. split; [exact Hin|].
  exact (proj2 (unknown_column_task_listed_under_todo
                  (Samples.backend 8 9 0) [Samples.backend 8 9 0] done
                  eq_refl Hin)).
Defined.

(** ** Optimistic creation *)

(** With no task list cached, [addTask] sends the request and the cache
    stays without any list: no synthetic task appears. *)
Lemma addTask_unloaded_no_synthetic_task :
  let r := useKanban.addTask (Samples.draft todo) Samples.clock Samples.unloaded in
  tasksData (client r.1) = None ∧
  requests r.1 = [CreateTask {| cr_title := "Write report"; cr_description := Null;
                                cr_column_id := 1; cr_order := 0 |}] ∧
  ¬ synthetic_task_cached (Samples.draft todo) Samples.clock Samples.unloaded.
Proof.
  split; [reflexivity|]. split; [reflexivity|].
  intros (cached & t & Hdata & _). discriminate Hdata.
Qed.

(** C2 (amended). When the cache holds a task list, [addTask] appends to it,
    before the request settles, one synthetic task whose id is ["temp-"]
    followed by the clock reading, without backend id, whose column id is the
    image of the draft's status in the status table and whose order is the
    number of cached tasks of that status; with two [todo] tasks cached, a
    [todo] draft yields order 2 and column id 1, listed under [todo].  When the
    cache holds no list, none is created.  In both cases the create request
    is sent. *)
Theorem addTask_synthetic_task (task : TaskDraft) (clock : Clock) (w : World) :
  match tasksData (client w) with
  | Some cached =>
      ∃ synthetic,
        tasksData (client (useKanban.addTask task clock w).1)
        = Some (cached ++ [synthetic]) ∧
        requests (useKanban.addTask task clock w).1
        = requests w ++
          [CreateTask
             (transformToCreateRequest task
                (Z.of_nat (length (getTasksByStatus cached (d_status task)))))] ∧
        id synthetic = String.append "temp-" (pretty (Date_now clock)) ∧
        backendId synthetic = None ∧
        columnId synthetic = STATUS_COLUMN_MAP !! d_status task ∧
        order synthetic
        = Some (Z.of_nat (length (getTasksByStatus cached (d_status task)))) ∧
        (d_status task = todo →
         length (getTasksByStatus cached todo) = 2%nat →
         order synthetic = Some 2 ∧ columnId synthetic = Some 1 ∧
         synthetic ∈ getTasksByStatus (cached ++ [synthetic]) todo)
  | None =>
      tasksData (client (useKanban.addTask task clock w).1) = None ∧
      requests (useKanban.addTask task clock w).1
      = requests w ++ [CreateTask (transformToCreateRequest task 0)]
  end.
Proof.
  destruct (tasksData (client w)) as [cached|] eqn:Hdata.
  - eexists. split.
    + unfold useKanban.addTask, mutate. simpl.
      unfold useCreateTask.onMutate, getQueryData, cancelQueries.
      rewrite Hdata. simpl. reflexivity.
    + unfold useKanban.tasks. rewrite Hdata. simpl.
      split.
      { unfold useKanban.addTask, mutate, useKanban.tasks. simpl.
        unfold useCreateTask.onMutate, getQueryData, cancelQueries.
        rewrite Hdata. reflexivity. }
      split; [reflexivity|]. split; [reflexivity|].
      split.
      { rewrite STATUS_COLUMN_MAP_total.
        destruct (d_status task); reflexivity. }
      split; [reflexivity|].
      intros Htodo Hlen. rewrite Htodo.
      unfold getTasksByStatus in Hlen |- *. rewrite Hlen.
      split; [reflexivity|]. split; [reflexivity|].
      apply list_elem_of_filter. split; [reflexivity|].
      apply elem_of_app. right. apply list_elem_of_singleton. reflexivity.
  - unfold useKanban.addTask, mutate, useKanban.tasks. simpl.
    unfold useCreateTask.onMutate, getQueryData, cancelQueries.
    rewrite Hdata. simpl. split; [exact Hdata | reflexivity].
Qed.

Lemma addTask_synthetic_task_witness :
  let w := Samples.loaded [Samples.backend 1 1 0; Samples.backend 2 1 1;
                           Samples.backend 3 3 0] in
  ∃ synthetic,
    tasksData (client (useKanban.addTask (Samples.draft todo) Samples.clock w).1)
    = Some (useKanban.tasks w ++ [synthetic]) ∧
    order synthetic = Some 2 ∧ columnId synthetic = Some 1 ∧
    synthetic ∈ getTasksByStatus (useKanban.tasks w ++ [synthetic]) todo.
Proof.
  intros w.
  destruct (addTask_synthetic_task (Samples.draft todo) Samples.clock w)
    as (synthetic & Hcache & _ & _ & _ & _ & _ & Htodo).
  destruct (Htodo eq_refl eq_refl) as (Hord & Hcol & Hin).
  exists synthetic. repeat split; assumption.
Defined.

(** ** The guard on tasks without backend id *)

Lemma synced_backend_id_found (taskId : string) (w : World) (task : Task) (b : Z) :
  List.find (λ t, bool_decide (id t = taskId)) (useKanban.tasks w) = Some task →
  backendId task = Some b → b ≠ 0 →
  useKanban.synced_backend_id taskId w = Some b.
Proof.
  intros Hfind Hb Hnz. unfold useKanban.synced_backend_id.
  rewrite Hfind, Hb. unfold truthy_number.
  destruct (Z.eqb_spec b 0); [contradiction|reflexivity].
Qed.

Lemma synced_backend_id_unsynced (taskId : string) (w : World) (task : Task) :
  List.find (λ t, bool_decide (id t = taskId)) (useKanban.tasks w) = Some task →
  backendId task = None →
  useKanban.synced_backend_id taskId w = None.
Proof.
  intros Hfind Hb. unfold useKanban.synced_backend_id.
  rewrite Hfind, Hb. reflexivity.
Qed.

(** The guard is a truthiness test: a backend id of 0 counts as missing. *)
Lemma synced_backend_id_zero (taskId : string) (w : World) (task : Task) :
  List.find (λ t, bool_decide (id t = taskId)) (useKanban.tasks w) = Some task →
  backendId task = Some 0 →
  useKanban.synced_backend_id taskId w = None.
Proof.
  intros Hfind Hb. unfold useKanban.synced_backend_id.
  rewrite Hfind, Hb. reflexivity.
Qed.

(** A task can only be found when the cache holds a list. *)
Lemma found_task_cached (taskId : string) (w : World) (task : Task) :
  List.find (λ t, bool_decide (id t = taskId)) (useKanban.tasks w) = Some task →
  tasksData (client w) = Some (useKanban.tasks w) ∧ task ∈ useKanban.tasks w.
Proof.
  unfold useKanban.tasks. intros Hfind.
  destruct (tasksData (client w)) as [cached|]; simpl in *; [|discriminate].
  split; [reflexivity|].
  apply list_elem_of_In. eapply find_some. exact Hfind.
Qed.

(** C6. When the task that [updateTask] resolves for the given id carries no
    backend id, the call stops at the guard: the only effect is the
    [console.error] line; no request is issued, nothing is left in flight
    and the query cache is the one it was. *)
Theorem updateTask_not_synced (taskId : string) (updates : TaskUpdates)
    (clock : Clock) (w : World) (task : Task)
    (Hfound : List.find (λ t, bool_decide (id t = taskId)) (useKanban.tasks w)
              = Some task)
    (Hsynthetic : backendId task = None) :
  (useKanban.updateTask taskId updates clock w).2 = None ∧
  client (useKanban.updateTask taskId updates clock w).1 = client w ∧
  requests (useKanban.updateTask taskId updates clock w).1 = requests w ∧
  console (useKanban.updateTask taskId updates clock w).1
  = console w ++ [useKanban.NotSynced].
Proof.
  unfold useKanban.updateTask.
  rewrite (synced_backend_id_unsynced taskId w task Hfound Hsynthetic).
  repeat split; reflexivity.
Qed.

Lemma updateTask_not_synced_witness :
  let w := (useKanban.addTask (Samples.draft todo) Samples.clock
              (Samples.loaded [Samples.backend 1 1 0])).1 in
  let r := useKanban.updateTask "temp-1730000000000"
             {| u_id := None; u_title := Some "Renamed"; u_description := None;
                u_status := None; u_priority := None; u_createdAt := None;
                u_updatedAt := None; u_backendId := None; u_columnId := None;
                u_order := None |} Samples.clock w in
  r.2 = None ∧ client r.1 = client w ∧ requests r.1 = requests w.
Proof.
  intros w r.
  destruct (updateTask_not_synced "temp-1730000000000"
              {| u_id := None; u_title := Some "Renamed"; u_description := None;
                 u_status := None; u_priority := None; u_createdAt := None;
                 u_updatedAt := None; u_backendId := None; u_columnId := None;
                 u_order := None |} Samples.clock w
              (useCreateTask.optimisticTask
                 (transformToCreateRequest (Samples.draft todo) 1) Samples.clock)
              eq_refl eq_refl)
    as (Hp & Hc & Hr & _).
  repeat split; assumption.
Defined.

(** ** Moving a task *)

(** C5. For a task that [moveTask] resolves and that carries a backend id
    (a non-zero number, which is what the guard tests), the request names
    the status table's image of the target status as target column and the
    number of cached tasks of the target status as new order; the cached
    task optimistically takes that column id and order; and when the request
    is rejected the cache is again the list held before the move, so the task
    has its former column and order. *)
Theorem moveTask_appends_and_reverts (taskId : string) (newStatus : TaskStatus)
    (clock : Clock) (w : World) (task : Task) (b : Z) (err : ApiFailure)
    (Hfound : List.find (λ t, bool_decide (id t = taskId)) (useKanban.tasks w)
              = Some task)
    (Hsynced : backendId task = Some b)
    (Hnonzero : b ≠ 0) :
  ∃ target p,
    let newOrder :=
      Z.of_nat (length (getTasksByStatus (useKanban.tasks w) newStatus)) in
    let moved := spread_move task target newOrder (iso_first clock) in
    let w1 := (useKanban.moveTask taskId newStatus clock w).1 in
    STATUS_COLUMN_MAP !! newStatus = Some target ∧
    (useKanban.moveTask taskId newStatus clock w).2 = Some p ∧
    variables p = MoveTask b target newOrder ∧
    requests w1 = requests w ++ [MoveTask b target newOrder] ∧
    tasksData (client w1)
    = Some (moved_cache b target newOrder clock (useKanban.tasks w)) ∧
    moved ∈ moved_cache b target newOrder clock (useKanban.tasks w) ∧
    columnId moved = Some target ∧
    order moved = Some newOrder ∧
    tasksData (client (settle (Rejected err) p w1)) = tasksData (client w) ∧
    tasksData (client w) = Some (useKanban.tasks w) ∧
    task ∈ useKanban.tasks w.
Proof.
  destruct (found_task_cached taskId w task Hfound) as [Hdata Hin].
  pose proof (STATUS_COLUMN_MAP_total newStatus) as Htarget.
  eexists. eexists. cbv zeta.
  unfold useKanban.moveTask.
  rewrite (synced_backend_id_found taskId w task b Hfound Hsynced Hnonzero).
  rewrite Htarget. simpl default.
  unfold mutate. simpl onMutate.
  unfold useMoveTask.onMutate, getQueryData, cancelQueries.
  rewrite Hdata. simpl.
  split; [reflexivity|]. split; [reflexivity|]. split; [reflexivity|].
  split; [reflexivity|]. split; [reflexivity|].
  split.
  { unfold moved_cache. apply list_elem_of_fmap.
    exists task. split; [|exact Hin].
    destruct (decide (backendId task = Some b)); [reflexivity|contradiction]. }
  split; [reflexivity|]. split; [reflexivity|].
  split; [reflexivity|].
  split; [reflexivity|exact Hin].
Qed.

Lemma moveTask_appends_and_reverts_witness :
  let w := Samples.loaded [Samples.backend 7 1 0; Samples.backend 9 3 0] in
  let r := useKanban.moveTask "7" done Samples.clock w in
  List.find (λ t, bool_decide (id t = "7")) (useKanban.tasks w)
  = Some (transformBackendTask (Samples.backend 7 1 0)) ∧
  (7 : Z) ≠ 0 ∧
  requests r.1 = [MoveTask 7 3 1] ∧
  (∃ p, r.2 = Some p ∧
        tasksData (client (settle (Rejected (ServerRejected 500)) p r.1))
        = tasksData (client w)).
Proof.
  intros w r.
  assert (Hnz : (7 : Z) ≠ 0) by discriminate.
  split; [reflexivity|]. split; [exact Hnz|].
  destruct (moveTask_appends_and_reverts "7" done Samples.clock w
              (transformBackendTask (Samples.backend 7 1 0)) 7
              (ServerRejected 500) eq_refl eq_refl Hnz)
    as (target & p & Htarget & Hp & _ & Hreq & _ & _ & _ & _ & Hback & _).
  assert (Ht : target = 3) by (vm_compute in Htarget; congruence).
  subst target.
  split; [exact Hreq|].
  exists p. split; [exact Hp | exact Hback].
Defined.

(** ** The drag handler *)

Lemma status_of_literal_sound (x : string) (s : TaskStatus) :
  status_of_literal x = Some s → status_literal s = x.
Proof.
  unfold status_of_literal.
  destruct (String.eqb_spec x "todo") as [->|_]; [intros [= <-]; reflexivity|].
  destruct (String.eqb_spec x "in-progress") as [->|_];
    [intros [= <-]; reflexivity|].
  destruct (String.eqb_spec x "done") as [->|_]; [intros [= <-]; reflexivity|].
  discriminate.
Qed.

(** C9. When a drag ends over nothing, or over something whose identifier is
    not the status of a column of the board, the handler issues no move:
    nothing is in flight, the application state (cache, requests, console)
    is untouched, and the only change is that no task is active any more. *)
Theorem handleDragEnd_without_valid_target (event : KanbanBoard.DragEndEvent)
    (clock : Clock) (b : KanbanBoard.Board)
    (Hmiss : ∀ over s, KanbanBoard.over_id event = Some over →
                       s ∈ KanbanBoard.columns (KanbanBoard.backendColumns b) →
                       status_literal s ≠ over) :
  KanbanBoard.handleDragEnd event clock b
  = ({| KanbanBoard.world := KanbanBoard.world b;
        KanbanBoard.backendColumns := KanbanBoard.backendColumns b;
        KanbanBoard.activeTask := None |}, None).
Proof.
  unfold KanbanBoard.handleDragEnd.
  destruct (KanbanBoard.over_id event) as [over|] eqn:Hover; [|reflexivity].
  destruct (status_of_literal over) as [s|] eqn:Hlit; [|reflexivity].
  case_bool_decide as Hcol; [|reflexivity].
  exfalso. apply (Hmiss over s eq_refl Hcol).
  apply status_of_literal_sound. exact Hlit.
Qed.

Lemma handleDragEnd_without_valid_target_witness :
  let b := {| KanbanBoard.world := Samples.loaded [Samples.backend 7 1 0];
              KanbanBoard.backendColumns :=
                [ {| col_id := 1; col_title := "Todo"; col_order := 0;
                     col_created_at := "2024-01-01T00:00:00Z" |};
                  {| col_id := 2; col_title := "In Progress"; col_order := 1;
                     col_created_at := "2024-01-01T00:00:00Z" |} ];
              KanbanBoard.activeTask :=
                Some (transformBackendTask (Samples.backend 7 1 0)) |} in
  let released_outside := {| KanbanBoard.active_id := "7";
                             KanbanBoard.over_id := None |} in
  let released_on_absent_column := {| KanbanBoard.active_id := "7";
                                      KanbanBoard.over_id := Some "done" |} in
  KanbanBoard.world (KanbanBoard.handleDragEnd released_outside Samples.clock b).1
  = KanbanBoard.world b ∧
  (KanbanBoard.handleDragEnd released_on_absent_column Samples.clock b).2 = None.
Proof.
  intros b released_outside released_on_absent_column.
  split.
  - rewrite (handleDragEnd_without_valid_target released_outside Samples.clock b).
    + reflexivity.
    + intros over s Hover. discriminate Hover.
  - rewrite (handleDragEnd_without_valid_target released_on_absent_column
               Samples.clock b).
    + reflexivity.
    + intros over s Hover Hcol. injection Hover as <-.
      vm_compute in Hcol.
      apply list_elem_of_In in Hcol. simpl in Hcol.
      destruct Hcol as [<-|[<-|[]]]; discriminate.
Defined.

(** ** The creation form *)

Lemma trimStart_length (s : string) : (String.length (trimStart s) ≤ String.length s)%nat.
Proof.
  induction s as [|c rest IH]; simpl; [lia|].
  destruct (is_white_space c); simpl; lia.
Qed.

Lemma trimEnd_length (s : string) : (String.length (trimEnd s) ≤ String.length s)%nat.
Proof.
  induction s as [|c rest IH]; simpl; [lia|].
  destruct (trimEnd rest) as [|c' kept]; simpl in *.
  - destruct (is_white_space c); simpl; lia.
  - lia.
Qed.

Lemma trim_length (s : string) : (String.length (trim s) ≤ String.length s)%nat.
Proof.
  unfold trim. pose proof (trimEnd_length (trimStart s)).
  pose proof (trimStart_length s). lia.
Qed.

(** The title chain measures the title as typed, then trims it. *)
Lemma title_parse (s : string) :
  ZodString_parse taskCreateSchema.title s [] =
  ((if (String.length s <? 3)%nat
    then ["Title must be at least 3 characters"] else []) ++
   (if (200 <? String.length s)%nat
    then ["Title must not exceed 200 characters"] else []),
   trim s).
Proof.
  unfold taskCreateSchema.title. simpl.
  destruct (String.length s <? 3)%nat, (200 <? String.length s)%nat; reflexivity.
Qed.

Lemma description_parse (d : string) :
  ZodString_parse taskCreateSchema.description d [] = ([], trim d).
Proof. reflexivity. Qed.

(** A title typed with fewer than 3 or more than 200 characters is refused,
    and a refused submission changes nothing. *)
Lemma handleSubmit_title_out_of_range (values : TaskCreateFormValues)
    (clock : Clock) (w : World) :
  (String.length (f_title values) < 3 ∨ 200 < String.length (f_title values))%nat →
  ∃ errors, errors ≠ [] ∧
    TaskCreateForm.handleSubmit values clock w
    = (w, TaskCreateForm.ValidationFailure errors).
Proof.
  intros Hlen. unfold TaskCreateForm.handleSubmit, taskCreateSchema.safeParse.
  rewrite title_parse.
  destruct (f_description values) as [d|]; [rewrite description_parse|];
    destruct (Nat.ltb_spec (String.length (f_title values)) 3);
    destruct (Nat.ltb_spec 200 (String.length (f_title values)));
    try lia; simpl; eexists; (split; [|reflexivity]); discriminate.
Qed.

(** In particular a title still longer than 200 characters once trimmed is
    refused. *)
Lemma handleSubmit_trimmed_title_too_long (values : TaskCreateFormValues)
    (clock : Clock) (w : World) :
  (200 < String.length (trim (f_title values)))%nat →
  ∃ errors, errors ≠ [] ∧
    TaskCreateForm.handleSubmit values clock w
    = (w, TaskCreateForm.ValidationFailure errors).
Proof.
  intros Hlen. apply handleSubmit_title_out_of_range.
  pose proof (trim_length (f_title values)). lia.
Qed.

(** A title typed with 3 to 200 characters is accepted whatever is left of
    it after trimming, and the trimmed title is the one submitted. *)
Lemma safeParse_title_in_range (values : TaskCreateFormValues) :
  (3 ≤ String.length (f_title values) ≤ 200)%nat →
  taskCreateSchema.safeParse values
  = inr {| f_title := trim (f_title values);
           f_description := trim <$> f_description values;
           f_status := f_status values |}.
Proof.
  intros [Hmin Hmax]. unfold taskCreateSchema.safeParse.
  rewrite title_parse.
  destruct (Nat.ltb_spec (String.length (f_title values)) 3); [lia|].
  destruct (Nat.ltb_spec 200 (String.length (f_title values))); [lia|].
  destruct (f_description values) as [d|]; reflexivity.
Qed.

(** C7 (evaluation). The title typed as two spaces, the letter a and two
    spaces has five characters, so the length checks, which run before the
    trim, accept it; the title that leaves the schema is the one-character
    string "a".  The submission goes through: the create request is sent
    with that title and the synthetic task is written into the cache. *)
Theorem padded_short_title_is_submitted :
  let values := {| f_title := "  a  "; f_description := Some "";
                   f_status := todo |} in
  let r := TaskCreateForm.handleSubmit values Samples.clock (Samples.loaded []) in
  taskCreateSchema.safeParse values
  = inr {| f_title := "a"; f_description := Some ""; f_status := todo |} ∧
  String.length "a" = 1%nat ∧
  requests r.1 = [CreateTask {| cr_title := "a"; cr_description := Null;
                                cr_column_id := 1; cr_order := 0 |}] ∧
  (∃ p, r.2 = TaskCreateForm.Submitted (Some p)) ∧
  (∃ synthetic, tasksData (client r.1) = Some [synthetic] ∧
                title synthetic = "a").
Proof.
  intros values r.
  split; [reflexivity|]. split; [reflexivity|]. split; [reflexivity|].
  split; eexists; [|split]; reflexivity.
Qed.

(* ===================================================================== *)
(** * Further properties of the code                                      *)
(* ===================================================================== *)

(** ** The transformations between backend and frontend records *)

Lemma status_round_trip (s : TaskStatus) (c : Z) :
  STATUS_COLUMN_MAP !! s = Some c → COLUMN_STATUS_MAP !! c = Some s.
Proof.
  rewrite STATUS_COLUMN_MAP_total. intros [= <-]. destruct s; reflexivity.
Qed.

Lemma create_request_column (task : TaskDraft) (n : Z) :
  STATUS_COLUMN_MAP !! d_status task
  = Some (cr_column_id (transformToCreateRequest task n)).
Proof.
  unfold transformToCreateRequest. simpl.
  rewrite STATUS_COLUMN_MAP_total. destruct (d_status task); reflexivity.
Qed.

(** X1. The status chosen for a new task survives the trip through the
    store: a backend record carrying the column id that the create request
    asked for is shown with the draft's status. *)
Theorem created_task_comes_back_with_its_status (task : TaskDraft) (n : Z)
    (backendTask : BackendTask)
    (Hstored : bt_column_id backendTask
               = cr_column_id (transformToCreateRequest task n)) :
  status (transformBackendTask backendTask) = d_status task.
Proof.
  unfold transformBackendTask. simpl status. rewrite Hstored.
  rewrite (status_round_trip _ _ (create_request_column task n)).
  reflexivity.
Qed.

Lemma created_task_comes_back_with_its_status_witness :
  status (transformBackendTask (Samples.backend 41 3 0)) = done.
Proof.
  exact (created_task_comes_back_with_its_status
           (Samples.draft done) 0 (Samples.backend 41 3 0) eq_refl).
Defined.

(** X2. Descriptions are normalised on both sides: a fetched task holds
    either no description or a non-empty one (never [null], never the empty
    string), and a create request holds either [null] or a non-empty
    description (never [undefined], never the empty string). *)
Theorem descriptions_are_normalised (backendTask : BackendTask)
    (task : TaskDraft) (n : Z) :
  (description (transformBackendTask backendTask) = Undefined ∨
   ∃ text, description (transformBackendTask backendTask) = Val text ∧
           bt_description backendTask = Val text ∧ text ≠ "") ∧
  (cr_description (transformToCreateRequest task n) = Null ∨
   ∃ text, cr_description (transformToCreateRequest task n) = Val text ∧
           d_description task = Val text ∧ text ≠ "").
Proof.
  split.
  - unfold transformBackendTask. simpl. unfold or_undefined, truthy_text.
    destruct (bt_description backendTask) as [| |text]; auto.
    destruct (String.eqb_spec text ""); simpl; auto.
    right. exists text. auto.
  - unfold transformToCreateRequest. simpl. unfold or_null, truthy_text.
    destruct (d_description task) as [| |text]; auto.
    destruct (String.eqb_spec text ""); simpl; auto.
    right. exists text. auto.
Qed.

(** The decimal rendering of a number never starts with the letter t. *)
Lemma pretty_N_go_not_t (x : N) (s s' : string) :
  s ≠ String "t" s' → pretty_N_go x s ≠ String "t" s'.
Proof.
  revert s. induction (N.lt_wf_0 x) as [x _ IH]; intros s Hs.
  assert (x = 0 ∨ 0 < x)%N as [->|Hpos] by lia.
  - rewrite pretty_N_go_0. exact Hs.
  - rewrite pretty_N_go_step by exact Hpos. apply IH.
    + apply N.div_lt; lia.
    + unfold pretty_N_char. repeat case_match; discriminate.
Qed.

Lemma pretty_Z_not_temp (z : Z) (rest : string) :
  pretty z ≠ String.append "temp-" rest.
Proof.
  destruct z as [|p|p]; simpl; try discriminate.
  unfold pretty, pretty_Z, pretty, pretty_positive, pretty, pretty_N.
  case_decide; [discriminate|].
  apply pretty_N_go_not_t. discriminate.
Qed.

(** X3. Frontend ids tell tasks apart: two fetched tasks have the same id
    exactly when their backend ids are equal, and the id of a fetched task
    is never the id of a synthetic task. *)
Theorem fetched_ids_are_faithful (a b : BackendTask)
    (newTask : CreateTaskRequest) (clock : Clock) :
  (id (transformBackendTask a) = id (transformBackendTask b)
   ↔ bt_id a = bt_id b) ∧
  id (transformBackendTask a) ≠ id (useCreateTask.optimisticTask newTask clock).
Proof.
  split.
  - simpl. split.
    + intros H. apply (inj pretty). exact H.
    + intros ->. reflexivity.
  - simpl. apply pretty_Z_not_temp.
Qed.

(** ** What [addTask] writes and sends *)

Lemma addTask_cache_loaded (task : TaskDraft) (clock : Clock) (w : World)
    (cached : list Task) :
  tasksData (client w) = Some cached →
  tasksData (client (useKanban.addTask task clock w).1)
  = Some (cached ++
          [useCreateTask.optimisticTask
             (transformToCreateRequest task
                (Z.of_nat (length (getTasksByStatus cached (d_status task)))))
             clock]) ∧
  requests (useKanban.addTask task clock w).1
  = requests w ++
    [CreateTask (transformToCreateRequest task
                   (Z.of_nat (length (getTasksByStatus cached (d_status task)))))].
Proof.
  intros Hdata. unfold useKanban.addTask, mutate, useKanban.tasks. simpl.
  unfold useCreateTask.onMutate, getQueryData, cancelQueries.
  rewrite Hdata. simpl. split; reflexivity.
Qed.

(** ** The guard of [moveTask], [deleteTask] and [updateTask] *)

Lemma find_absent (taskId : string) (l : list Task) :
  (∀ t, t ∈ l → id t ≠ taskId) →
  List.find (λ t, bool_decide (id t = taskId)) l = None.
Proof.
  intros Habsent.
  destruct (List.find _ l) as [t|] eqn:Hfind; [|reflexivity].
  apply find_some in Hfind as [Hin Hid].
  apply bool_decide_eq_true in Hid.
  exfalso. apply (Habsent t); [apply list_elem_of_In; exact Hin | exact Hid].
Qed.

Lemma guard_refuses (taskId : string) (newStatus : TaskStatus)
    (updates : TaskUpdates) (clock : Clock) (w : World) :
  useKanban.synced_backend_id taskId w = None →
  refused (useKanban.moveTask taskId newStatus clock w) w ∧
  refused (useKanban.deleteTask taskId clock w) w ∧
  refused (useKanban.updateTask taskId updates clock w) w.
Proof.
  intros Hguard.
  unfold useKanban.moveTask, useKanban.deleteTask, useKanban.updateTask.
  rewrite Hguard. unfold refused, useKanban.reject. simpl. tauto.
Qed.

(** X4. An id that no cached task carries is refused by all three
    operations; in particular every id is refused while no task list is
    cached. *)
Theorem unknown_task_is_refused (taskId : string) (newStatus : TaskStatus)
    (updates : TaskUpdates) (clock : Clock) (w : World)
    (Habsent : ∀ t, t ∈ useKanban.tasks w → id t ≠ taskId) :
  refused (useKanban.moveTask taskId newStatus clock w) w ∧
  refused (useKanban.deleteTask taskId clock w) w ∧
  refused (useKanban.updateTask taskId updates clock w) w.
Proof.
  apply guard_refuses. unfold useKanban.synced_backend_id.
  rewrite (find_absent taskId _ Habsent). reflexivity.
Qed.

Lemma unknown_task_is_refused_witness :
  refused (useKanban.moveTask "7" done Samples.clock Samples.unloaded)
          Samples.unloaded.
Proof.
  refine (proj1 (unknown_task_is_refused "7" done
                   {| u_id := None; u_title := None; u_description := None;
                      u_status := None; u_priority := None; u_createdAt := None;
                      u_updatedAt := None; u_backendId := None;
                      u_columnId := None; u_order := None |}
                   Samples.clock Samples.unloaded _)).
  intros t Hin. apply list_elem_of_In in Hin. destruct Hin.
Defined.

(** X5. A task that carries no backend id, or the backend id 0 (which the
    test [!task.backendId] takes for a missing one), can be neither moved
    nor deleted nor updated. *)
Theorem unsynced_task_is_refused (taskId : string) (newStatus : TaskStatus)
    (updates : TaskUpdates) (clock : Clock) (w : World) (task : Task)
    (Hfound : List.find (λ t, bool_decide (id t = taskId)) (useKanban.tasks w)
              = Some task)
    (Hunsynced : backendId task = None ∨ backendId task = Some 0) :
  refused (useKanban.moveTask taskId newStatus clock w) w ∧
  refused (useKanban.deleteTask taskId clock w) w ∧
  refused (useKanban.updateTask taskId updates clock w) w.
Proof.
  apply guard_refuses.
  destruct Hunsynced as [Hnone|Hzero].
  - exact (synced_backend_id_unsynced taskId w task Hfound Hnone).
  - exact (synced_backend_id_zero taskId w task Hfound Hzero).
Qed.

Lemma unsynced_task_is_refused_witness :
  let w := Samples.loaded [Samples.backend 0 1 0] in
  refused (useKanban.deleteTask "0" Samples.clock w) w.
Proof.
  intros w.
  refine (proj1 (proj2 (unsynced_task_is_refused "0" todo
                   {| u_id := None; u_title := None; u_description := None;
                      u_status := None; u_priority := None; u_createdAt := None;
                      u_updatedAt := None; u_backendId := None;
                      u_columnId := None; u_order := None |}
                   Samples.clock w
                   (transformBackendTask (Samples.backend 0 1 0))
                   eq_refl _))).
  right. reflexivity.
Defined.

Lemma find_snoc_absent (taskId : string) (l : list Task) (t : Task) :
  (∀ t', t' ∈ l → id t' ≠ taskId) → id t = taskId →
  List.find (λ t', bool_decide (id t' = taskId)) (l ++ [t]) = Some t.
Proof.
  intros Habsent Hid.
  induction l as [|a l IH]; simpl.
  - rewrite bool_decide_eq_true_2 by exact Hid. reflexivity.
  - rewrite bool_decide_eq_false_2.
    + apply IH. intros t' Hin. apply Habsent. right. exact Hin.
    + apply Habsent. left.
Qed.

(** X6. A task just created cannot be touched before the refetch: provided
    no cached task already carries the same temporary id, the synthetic task
    that [addTask] wrote is refused by [moveTask], [deleteTask] and
    [updateTask]. *)
Theorem synthetic_task_is_refused (task : TaskDraft) (clock clock' : Clock)
    (newStatus : TaskStatus) (updates : TaskUpdates) (w : World)
    (cached : list Task)
    (Hloaded : tasksData (client w) = Some cached)
    (Hfresh : ∀ t, t ∈ cached →
                   id t ≠ String.append "temp-" (pretty (Date_now clock))) :
  let w1 := (useKanban.addTask task clock w).1 in
  let taskId := String.append "temp-" (pretty (Date_now clock)) in
  refused (useKanban.moveTask taskId newStatus clock' w1) w1 ∧
  refused (useKanban.deleteTask taskId clock' w1) w1 ∧
  refused (useKanban.updateTask taskId updates clock' w1) w1.
Proof.
  intros w1 taskId.
  destruct (addTask_cache_loaded task clock w cached Hloaded) as [Hcache _].
  apply guard_refuses.
  eapply synced_backend_id_unsynced.
  - unfold useKanban.tasks. subst w1. rewrite Hcache. simpl.
    apply find_snoc_absent; [exact Hfresh | reflexivity].
  - reflexivity.
Qed.

Lemma synthetic_task_is_refused_witness :
  let w := Samples.loaded [Samples.backend 1 1 0] in
  let w1 := (useKanban.addTask (Samples.draft todo) Samples.clock w).1 in
  refused (useKanban.moveTask "temp-1730000000000" done Samples.clock w1) w1.
Proof.
  intros w w1.
  refine (proj1 (synthetic_task_is_refused (Samples.draft todo) Samples.clock
                   Samples.clock done
                   {| u_id := None; u_title := None; u_description := None;
                      u_status := None; u_priority := None; u_createdAt := None;
                      u_updatedAt := None; u_backendId := None;
                      u_columnId := None; u_order := None |}
                   w (useKanban.tasks w) eq_refl _)).
  intros t Hin. apply list_elem_of_singleton in Hin. subst t.
  vm_compute. discriminate.
Defined.

(** ** The optimistic edits *)

Lemma onMutate_loaded (m : Mutation) (clock : Clock) (qc : QueryClient)
    (cached : list Task) :
  tasksData qc = Some cached →
  tasksData (onMutate m clock qc).1 = Some (optimistic_edit m clock cached).
Proof.
  intros Hdata. destruct m; simpl;
    unfold useCreateTask.onMutate, useUpdateTask.onMutate,
           useDeleteTask.onMutate, useMoveTask.onMutate,
           getQueryData, cancelQueries; rewrite Hdata; reflexivity.
Qed.

Lemma mutate_client (m : Mutation) (clock : Clock) (w : World) :
  client (mutate m clock w).1 = (onMutate m clock (client w)).1 ∧
  requests (mutate m clock w).1 = requests w ++ [m] ∧
  console (mutate m clock w).1 = console w.
Proof.
  unfold mutate. destruct (onMutate m clock (client w)); simpl. tauto.
Qed.

(** The list the hook sees after [mutate]: the edited list, or still the
    empty list when nothing was cached. *)
Lemma mutate_tasks (m : Mutation) (clock : Clock) (w : World) :
  useKanban.tasks (mutate m clock w).1 =
    match tasksData (client w) with
    | Some cached => optimistic_edit m clock cached
    | None => []
    end.
Proof.
  unfold useKanban.tasks.
  destruct (mutate_client m clock w) as [-> _].
  destruct (tasksData (client w)) as [cached|] eqn:Hdata.
  - rewrite (onMutate_loaded m clock _ cached Hdata). reflexivity.
  - rewrite (onMutate_unloaded m clock _ Hdata), Hdata. reflexivity.
Qed.

Lemma guard_passes (taskId : string) (newStatus : TaskStatus)
    (updates : TaskUpdates) (clock : Clock) (w : World) (b : Z) :
  useKanban.synced_backend_id taskId w = Some b →
  useKanban.moveTask taskId newStatus clock w
  = mutate (MoveTask b (default 0 (STATUS_COLUMN_MAP !! newStatus))
              (Z.of_nat (length (getTasksByStatus (useKanban.tasks w) newStatus))))
           clock w ∧
  useKanban.deleteTask taskId clock w = mutate (DeleteTask b) clock w ∧
  useKanban.updateTask taskId updates clock w
  = mutate (UpdateTask b (transformToUpdateRequest updates)) clock w.
Proof.
  intros Hguard.
  unfold useKanban.moveTask, useKanban.deleteTask, useKanban.updateTask.
  rewrite Hguard. repeat split; reflexivity.
Qed.

(** Looking a fetched task up by the decimal rendering of its backend id
    finds a task with that backend id. *)
Lemma find_fetched (backendTasks : list BackendTask) (backendTask : BackendTask) :
  backendTask ∈ backendTasks →
  ∃ t, List.find (λ t, bool_decide (id t = pretty (bt_id backendTask)))
                 (useTasks_queryFn backendTasks) = Some t ∧
       backendId t = Some (bt_id backendTask).
Proof.
  unfold useTasks_queryFn.
  induction backendTasks as [|b rest IH]; intros Hin.
  - apply list_elem_of_In in Hin. destruct Hin.
  - simpl. case_bool_decide as Hid.
    + exists (transformBackendTask b). split; [reflexivity|].
      simpl in Hid |- *. apply (inj pretty) in Hid. rewrite Hid. reflexivity.
    + apply IH. apply elem_of_cons in Hin as [->|Hin]; [|exact Hin].
      exfalso. apply Hid. reflexivity.
Qed.

(** X7. Every fetched task with a non-zero backend id can be addressed by
    its frontend id: [moveTask], [deleteTask] and [updateTask] called with
    the decimal rendering of the backend id each send one request that
    carries that backend id. *)
Theorem fetched_task_is_addressable (backendTasks : list BackendTask)
    (backendTask : BackendTask) (newStatus : TaskStatus) (updates : TaskUpdates)
    (clock : Clock) (w : World)
    (Hcache : tasksData (client w) = Some (useTasks_queryFn backendTasks))
    (Hin : backendTask ∈ backendTasks)
    (Hnonzero : bt_id backendTask ≠ 0) :
  let taskId := pretty (bt_id backendTask) in
  (∃ target newOrder,
     requests (useKanban.moveTask taskId newStatus clock w).1
     = requests w ++ [MoveTask (bt_id backendTask) target newOrder]) ∧
  requests (useKanban.deleteTask taskId clock w).1
  = requests w ++ [DeleteTask (bt_id backendTask)] ∧
  requests (useKanban.updateTask taskId updates clock w).1
  = requests w ++ [UpdateTask (bt_id backendTask)
                              (transformToUpdateRequest updates)].
Proof.
  intros taskId.
  destruct (find_fetched backendTasks backendTask Hin) as (t & Hfind & Hb).
  assert (Hguard : useKanban.synced_backend_id taskId w = Some (bt_id backendTask)).
  { apply (synced_backend_id_found taskId w t); [|exact Hb|exact Hnonzero].
    unfold useKanban.tasks. rewrite Hcache. exact Hfind. }
  destruct (guard_passes taskId newStatus updates clock w _ Hguard)
    as (-> & -> & ->).
  split; [eexists; eexists|split]; apply mutate_client.
Qed.

Lemma fetched_task_is_addressable_witness :
  let w := Samples.loaded [Samples.backend 7 1 0; Samples.backend 9 3 0] in
  requests (useKanban.deleteTask "9" Samples.clock w).1 = [DeleteTask 9].
Proof.
  intros w.
  assert (Hin : Samples.backend 9 3 0
                ∈ [Samples.backend 7 1 0; Samples.backend 9 3 0]).
  { apply list_elem_of_In. simpl. tauto. }
  assert (Hnz : bt_id (Samples.backend 9 3 0) ≠ 0) by discriminate.
  exact (proj1 (proj2 (fetched_task_is_addressable
                         [Samples.backend 7 1 0; Samples.backend 9 3 0]
                         (Samples.backend 9 3 0) todo
                         {| u_id := None; u_title := None; u_description := None;
                            u_status := None; u_priority := None;
                            u_createdAt := None; u_updatedAt := None;
                            u_backendId := None; u_columnId := None;
                            u_order := None |}
                         Samples.clock w eq_refl Hin Hnz))).
Defined.

(** X8. Deleting a synced task removes it from the cache at once: the
    request names its backend id, the cached list keeps exactly the tasks
    with another (or no) backend id, in their sequence, and is shorter than
    before. *)
Theorem deleteTask_removes_at_once (taskId : string) (clock : Clock) (w : World)
    (task : Task) (b : Z)
    (Hfound : List.find (λ t, bool_decide (id t = taskId)) (useKanban.tasks w)
              = Some task)
    (Hsynced : backendId task = Some b)
    (Hnonzero : b ≠ 0) :
  let w1 := (useKanban.deleteTask taskId clock w).1 in
  requests w1 = requests w ++ [DeleteTask b] ∧
  (∀ t, t ∈ useKanban.tasks w1 ↔ t ∈ useKanban.tasks w ∧ backendId t ≠ Some b) ∧
  useKanban.tasks w1 `sublist_of` useKanban.tasks w ∧
  (task ∉ useKanban.tasks w1) ∧
  (length (useKanban.tasks w1) < length (useKanban.tasks w))%nat.
Proof.
  intros w1. subst w1.
  destruct (found_task_cached taskId w task Hfound) as [Hdata Hin].
  pose proof (synced_backend_id_found taskId w task b Hfound Hsynced Hnonzero)
    as Hguard.
  unfold useKanban.deleteTask. rewrite Hguard.
  rewrite mutate_tasks, Hdata. simpl optimistic_edit.
  split; [apply mutate_client|].
  split; [intros t; rewrite list_elem_of_filter; tauto|].
  split; [apply sublist_filter|].
  split.
  - rewrite list_elem_of_filter. intros [Hne _]. apply Hne. exact Hsynced.
  - apply (length_filter_lt _ _ task); [exact Hin|].
    intros Hne. apply Hne. exact Hsynced.
Qed.

Lemma deleteTask_removes_at_once_witness :
  let w := Samples.loaded [Samples.backend 7 1 0; Samples.backend 9 3 0] in
  (length (useKanban.tasks (useKanban.deleteTask "7" Samples.clock w).1)
   < length (useKanban.tasks w))%nat.
Proof.
  intros w.
  assert (Hnz : (7 : Z) ≠ 0) by discriminate.
  exact (proj2 (proj2 (proj2 (proj2
           (deleteTask_removes_at_once "7" Samples.clock w
              (transformBackendTask (Samples.backend 7 1 0)) 7
              eq_refl eq_refl Hnz))))).
Defined.

Lemma listing_under_map (g : Task → Task) (l : list Task) (s : TaskStatus) :
  (∀ t, id (g t) = id t ∧ status (g t) = status t) →
  id <$> getTasksByStatus (g <$> l) s = id <$> getTasksByStatus l s.
Proof.
  intros Hg. unfold getTasksByStatus.
  induction l as [|t rest IH]; [reflexivity|].
  rewrite fmap_cons, !filter_cons.
  destruct (Hg t) as [Hid Hst]. rewrite Hst.
  destruct (decide (status t = s)); [|exact IH].
  rewrite !fmap_cons, Hid, IH. reflexivity.
Qed.

Lemma find_under_map (g : Task → Task) (l : list Task) (taskId : string) :
  (∀ t, id (g t) = id t) →
  List.find (λ t, bool_decide (id t = taskId)) (g <$> l)
  = g <$> List.find (λ t, bool_decide (id t = taskId)) l.
Proof.
  intros Hg. induction l as [|t rest IH]; [reflexivity|].
  simpl. rewrite Hg. destruct (bool_decide (id t = taskId)); [reflexivity|exact IH].
Qed.

Lemma move_edit_keeps (b target n : Z) (iso : string) (t : Task) :
  let t' := if decide (backendId t = Some b) then spread_move t target n iso else t in
  id t' = id t ∧ status t' = status t ∧ backendId t' = backendId t.
Proof. simpl. destruct (decide (backendId t = Some b)); simpl; tauto. Qed.

Lemma update_edit_keeps (b : Z) (data : UpdateTaskRequest) (iso : string) (t : Task) :
  let t' := if decide (backendId t = Some b) then spread_update t data iso else t in
  id t' = id t ∧ status t' = status t ∧ backendId t' = backendId t.
Proof. simpl. destruct (decide (backendId t = Some b)); simpl; tauto. Qed.

Lemma listing_after_mutate (m : Mutation) (clock : Clock) (w : World)
    (s : TaskStatus) :
  match m with
  | UpdateTask _ _ | MoveTask _ _ _ =>
      id <$> getTasksByStatus (useKanban.tasks (mutate m clock w).1) s
      = id <$> getTasksByStatus (useKanban.tasks w) s
  | _ => True
  end.
Proof.
  destruct m as [data|b data|b|b target n]; try exact I;
    rewrite mutate_tasks; unfold useKanban.tasks;
    destruct (tasksData (client w)) as [cached|]; try reflexivity; simpl.
  - apply listing_under_map. intros t.
    destruct (update_edit_keeps b data (iso_first clock) t) as (? & ? & _). tauto.
  - apply listing_under_map. intros t.
    destruct (move_edit_keeps b target n (iso_first clock) t) as (? & ? & _). tauto.
Qed.

(** X9. Neither [moveTask] nor [updateTask] changes the column a card is
    shown in: whatever their arguments, and whether the guard stops them or
    not, every status list of the view-model holds the same task ids, in the
    same sequence, after the call as before it. *)
Theorem cards_keep_their_column (taskId : string) (newStatus : TaskStatus)
    (updates : TaskUpdates) (clock : Clock) (w : World) (s : TaskStatus) :
  id <$> useKanban.getTasksByStatusMemo
           (useKanban.moveTask taskId newStatus clock w).1 s
  = id <$> useKanban.getTasksByStatusMemo w s ∧
  id <$> useKanban.getTasksByStatusMemo
           (useKanban.updateTask taskId updates clock w).1 s
  = id <$> useKanban.getTasksByStatusMemo w s.
Proof.
  unfold useKanban.getTasksByStatusMemo.
  destruct (useKanban.synced_backend_id taskId w) as [b|] eqn:Hguard.
  - destruct (guard_passes taskId newStatus updates clock w b Hguard)
      as (-> & _ & ->).
    split.
    + apply (listing_after_mutate (MoveTask b _ _) clock w s).
    + apply (listing_after_mutate (UpdateTask b _) clock w s).
  - destruct (guard_refuses taskId newStatus updates clock w Hguard)
      as ((_ & Hm & _) & _ & (_ & Hu & _)).
    unfold useKanban.tasks. rewrite Hm, Hu. split; reflexivity.
Qed.

Lemma filter_under_map (P : Task → Prop) `{∀ t, Decision (P t)}
    (g : Task → Task) (l : list Task) :
  (∀ t, P t → g t = t) → (∀ t, ¬ P t → ¬ P (g t)) →
  filter P (g <$> l) = filter P l.
Proof.
  intros Hsame Hother. induction l as [|t rest IH]; [reflexivity|].
  rewrite fmap_cons, !filter_cons.
  destruct (decide (P t)) as [Ht|Ht].
  - rewrite (Hsame t Ht). destruct (decide (P t)); [|contradiction].
    rewrite IH. reflexivity.
  - destruct (decide (P (g t))) as [Hgt|_]; [|exact IH].
    exfalso. exact (Hother t Ht Hgt).
Qed.

Lemma filter_twice (P : Task → Prop) `{∀ t, Decision (P t)} (l : list Task) :
  filter P (filter P l) = filter P l.
Proof.
  induction l as [|t rest IH]; [reflexivity|].
  rewrite filter_cons. destruct (decide (P t)) as [Ht|Ht]; [|exact IH].
  rewrite filter_cons. destruct (decide (P t)); [|contradiction].
  rewrite IH. reflexivity.
Qed.

(** X10. An optimistic edit touches only its own target: after [mutate] for
    an update, a move or a deletion aimed at backend id [b], the cached
    tasks with another backend id, or with none, are exactly the ones held
    before, unchanged and in the same sequence; after [mutate] for a
    creation the former list is a prefix of the new one. *)
Theorem optimistic_edit_frame (m : Mutation) (clock : Clock) (w : World) :
  match m with
  | CreateTask _ =>
      useKanban.tasks w `prefix_of` useKanban.tasks (mutate m clock w).1
  | UpdateTask b _ | DeleteTask b | MoveTask b _ _ =>
      filter (λ t, backendId t ≠ Some b) (useKanban.tasks (mutate m clock w).1)
      = filter (λ t, backendId t ≠ Some b) (useKanban.tasks w)
  end.
Proof.
  rewrite mutate_tasks. unfold useKanban.tasks.
  destruct m as [data|b data|b|b target n];
    destruct (tasksData (client w)) as [cached|]; simpl; try reflexivity.
  - apply prefix_app_r. reflexivity.
  - apply filter_under_map.
    + intros t Ht. destruct (decide (backendId t = Some b)) as [e|_];
        [exfalso; exact (Ht e) | reflexivity].
    + intros t Ht. destruct (decide (backendId t = Some b)) as [e|_];
        [intros Hne; exact (Hne e) | exact Ht].
  - apply filter_twice.
  - unfold moved_cache. apply filter_under_map.
    + intros t Ht. destruct (decide (backendId t = Some b)) as [e|_];
        [exfalso; exact (Ht e) | reflexivity].
    + intros t Ht. destruct (decide (backendId t = Some b)) as [e|_];
        [intros Hne; exact (Hne e) | exact Ht].
Qed.

(** ** Orders computed from the cache *)

(** X11. [addTask] has no guard: in every state, loaded or not, it sends
    exactly one create request and logs nothing; the request carries the
    draft's title, the column id of the draft's status and, as order, the
    number of tasks the view-model lists under that status (0 while no task
    list is cached). *)
Theorem addTask_always_sends (task : TaskDraft) (clock : Clock) (w : World) :
  ∃ request p,
    (useKanban.addTask task clock w).2 = Some p ∧
    variables p = CreateTask request ∧
    requests (useKanban.addTask task clock w).1
    = requests w ++ [CreateTask request] ∧
    console (useKanban.addTask task clock w).1 = console w ∧
    cr_title request = d_title task ∧
    STATUS_COLUMN_MAP !! d_status task = Some (cr_column_id request) ∧
    cr_order request
    = Z.of_nat (length (useKanban.getTasksByStatusMemo w (d_status task))) ∧
    match tasksData (client w) with
    | None => cr_order request = 0
    | Some _ => True
    end.
Proof.
  unfold useKanban.addTask, mutate.
  destruct (onMutate _ clock (client w)) as [edited ctx] eqn:Hm. simpl.
  eexists. eexists. split; [reflexivity|]. simpl.
  split; [reflexivity|]. split; [reflexivity|]. split; [reflexivity|].
  split; [reflexivity|]. split; [apply create_request_column|].
  split; [reflexivity|].
  unfold useKanban.tasks. destruct (tasksData (client w)); [exact I|reflexivity].
Qed.

(** X12. Synthetic tasks are counted as [todo] tasks: when two tasks are
    created one after the other on a loaded cache, the first request carries
    the number of cached tasks of its status, and the second carries the
    number of cached tasks of its own status plus one if that status is
    [todo], whatever the status of the first draft.  Two creations in a row
    for the same status other than [todo] therefore ask for the same
    order. *)
Theorem successive_creations_orders (first second : TaskDraft)
    (clock clock' : Clock) (w : World) (cached : list Task)
    (Hloaded : tasksData (client w) = Some cached) :
  let w1 := (useKanban.addTask first clock w).1 in
  let w2 := (useKanban.addTask second clock' w1).1 in
  let count s := Z.of_nat (length (getTasksByStatus cached s)) in
  requests w2
  = requests w ++
    [CreateTask (transformToCreateRequest first (count (d_status first)));
     CreateTask (transformToCreateRequest second
                   (count (d_status second)
                    + if decide (d_status second = todo) then 1 else 0))].
Proof.
  intros w1 w2 count. subst w1 w2.
  destruct (addTask_cache_loaded first clock w cached Hloaded) as [Hc1 Hr1].
  destruct (addTask_cache_loaded second clock' _ _ Hc1) as [_ Hr2].
  rewrite Hr2, Hr1, <- app_assoc. simpl. do 4 f_equal.
  apply (f_equal (transformToCreateRequest second)).
  unfold count, getTasksByStatus.
  rewrite filter_app, length_app, filter_cons, filter_nil. simpl.
  destruct (decide (todo = d_status second)) as [e|n];
    destruct (decide (d_status second = todo)) as [e'|n'];
    try congruence; simpl; lia.
Qed.

Lemma successive_creations_orders_witness :
  let w := Samples.loaded [Samples.backend 1 2 0] in
  requests (useKanban.addTask (Samples.draft in_progress) Samples.clock
              (useKanban.addTask (Samples.draft in_progress) Samples.clock w).1).1
  = [CreateTask (transformToCreateRequest (Samples.draft in_progress) 1);
     CreateTask (transformToCreateRequest (Samples.draft in_progress) 1)].
Proof.
  intros w.
  exact (successive_creations_orders (Samples.draft in_progress)
           (Samples.draft in_progress) Samples.clock Samples.clock w
           (useKanban.tasks w) eq_refl).
Defined.

Lemma synced_after_move (taskId : string) (w : World) (task : Task) (b : Z)
    (b1 target n : Z) (clock : Clock) :
  List.find (λ t, bool_decide (id t = taskId)) (useKanban.tasks w) = Some task →
  backendId task = Some b → b ≠ 0 →
  useKanban.synced_backend_id taskId (mutate (MoveTask b1 target n) clock w).1
  = Some b.
Proof.
  intros Hfind Hb Hnz.
  destruct (found_task_cached taskId w task Hfind) as [Hdata _].
  eapply synced_backend_id_found; [|..|exact Hnz].
  - rewrite mutate_tasks, Hdata. simpl. unfold moved_cache.
    rewrite find_under_map.
    + rewrite Hfind. reflexivity.
    + intros t. apply (move_edit_keeps b1 target n (iso_first clock) t).
  - destruct (move_edit_keeps b1 target n (iso_first clock) task) as (_ & _ & ->).
    exact Hb.
Qed.

Lemma count_after_move (b target n : Z) (clock : Clock) (w : World)
    (s : TaskStatus) :
  length (getTasksByStatus (useKanban.tasks (mutate (MoveTask b target n) clock w).1) s)
  = length (getTasksByStatus (useKanban.tasks w) s).
Proof.
  pose proof (listing_after_mutate (MoveTask b target n) clock w s) as Hsame.
  cbv iota beta in Hsame. apply (f_equal length) in Hsame.
  rewrite !length_fmap in Hsame. exact Hsame.
Qed.

Lemma moveTask_request (taskId : string) (newStatus : TaskStatus) (clock : Clock)
    (w : World) (b : Z) :
  useKanban.synced_backend_id taskId w = Some b →
  ∃ target,
    STATUS_COLUMN_MAP !! newStatus = Some target ∧
    useKanban.moveTask taskId newStatus clock w
    = mutate (MoveTask b target
                (Z.of_nat (length (getTasksByStatus (useKanban.tasks w) newStatus))))
             clock w.
Proof.
  intros Hguard. unfold useKanban.moveTask. rewrite Hguard.
  rewrite STATUS_COLUMN_MAP_total. eexists. split; reflexivity.
Qed.

(** X13. An optimistic move does not change the counts that later moves
    use: when two synced tasks are moved to the same status one after the
    other, before any refetch, both requests carry the same new order, the
    number of tasks listed under that status before the first move. *)
Theorem successive_moves_same_order (id1 id2 : string) (newStatus : TaskStatus)
    (clock clock' : Clock) (w : World) (task1 task2 : Task) (b1 b2 : Z)
    (Hfound1 : List.find (λ t, bool_decide (id t = id1)) (useKanban.tasks w)
               = Some task1)
    (Hsynced1 : backendId task1 = Some b1) (Hnonzero1 : b1 ≠ 0)
    (Hfound2 : List.find (λ t, bool_decide (id t = id2)) (useKanban.tasks w)
               = Some task2)
    (Hsynced2 : backendId task2 = Some b2) (Hnonzero2 : b2 ≠ 0) :
  let w1 := (useKanban.moveTask id1 newStatus clock w).1 in
  let w2 := (useKanban.moveTask id2 newStatus clock' w1).1 in
  ∃ target,
    STATUS_COLUMN_MAP !! newStatus = Some target ∧
    requests w2
    = requests w ++
      [MoveTask b1 target
         (Z.of_nat (length (useKanban.getTasksByStatusMemo w newStatus)));
       MoveTask b2 target
         (Z.of_nat (length (useKanban.getTasksByStatusMemo w newStatus)))].
Proof.
  intros w1 w2. subst w1 w2.
  pose proof (synced_backend_id_found id1 w task1 b1 Hfound1 Hsynced1 Hnonzero1)
    as Hguard1.
  destruct (moveTask_request id1 newStatus clock w b1 Hguard1)
    as (target & Htarget & ->).
  pose proof (synced_after_move id2 w task2 b2 b1 target
                (Z.of_nat (length (getTasksByStatus (useKanban.tasks w) newStatus)))
                clock Hfound2 Hsynced2 Hnonzero2) as Hguard2.
  destruct (moveTask_request id2 newStatus clock' _ b2 Hguard2)
    as (target' & Htarget' & ->).
  assert (target' = target) as -> by congruence.
  exists target. split; [exact Htarget|].
  rewrite (count_after_move b1 target _ clock w newStatus).
  match goal with
  | |- requests (mutate ?m2 clock' (mutate ?m1 clock w).1).1 = _ =>
      destruct (mutate_client m2 clock' (mutate m1 clock w).1) as (_ & -> & _);
      destruct (mutate_client m1 clock w) as (_ & -> & _)
  end.
  rewrite <- app_assoc. reflexivity.
Qed.

Lemma successive_moves_same_order_witness :
  let w := Samples.loaded [Samples.backend 7 1 0; Samples.backend 8 1 1;
                           Samples.backend 9 3 0] in
  requests (useKanban.moveTask "8" done Samples.clock
              (useKanban.moveTask "7" done Samples.clock w).1).1
  = [MoveTask 7 3 1; MoveTask 8 3 1].
Proof.
  intros w.
  assert (H7 : (7 : Z) ≠ 0) by discriminate.
  assert (H8 : (8 : Z) ≠ 0) by discriminate.
  destruct (successive_moves_same_order "7" "8" done Samples.clock Samples.clock w
              (transformBackendTask (Samples.backend 7 1 0))
              (transformBackendTask (Samples.backend 8 1 1)) 7 8
              eq_refl eq_refl H7 eq_refl eq_refl H8) as (target & Htarget & Hreq).
  assert (target = 3) as -> by (vm_compute in Htarget; congruence).
  exact Hreq.
Defined.

(** X14. Dropping a synced task on the column it is already listed in is
    not recognised as such: a move request is sent all the same, and since
    the task itself is counted, the order it asks for is the full size of
    the column, at least 1. *)
Theorem move_within_own_column (taskId : string) (clock : Clock) (w : World)
    (task : Task) (b : Z)
    (Hfound : List.find (λ t, bool_decide (id t = taskId)) (useKanban.tasks w)
              = Some task)
    (Hsynced : backendId task = Some b) (Hnonzero : b ≠ 0) :
  ∃ target newOrder,
    requests (useKanban.moveTask taskId (status task) clock w).1
    = requests w ++ [MoveTask b target newOrder] ∧
    newOrder
    = Z.of_nat (length (useKanban.getTasksByStatusMemo w (status task))) ∧
    (1 ≤ newOrder)%Z.
Proof.
  pose proof (synced_backend_id_found taskId w task b Hfound Hsynced Hnonzero)
    as Hguard.
  destruct (moveTask_request taskId (status task) clock w b Hguard)
    as (target & _ & ->).
  exists target. eexists. split; [apply mutate_client|]. split; [reflexivity|].
  destruct (found_task_cached taskId w task Hfound) as [_ Hin].
  assert (Hlisted : task ∈ getTasksByStatus (useKanban.tasks w) (status task))
    by (apply getTasksByStatus_elem; auto).
  destruct (getTasksByStatus (useKanban.tasks w) (status task)) as [|t rest].
  - apply list_elem_of_In in Hlisted. destruct Hlisted.
  - simpl length. lia.
Qed.

Lemma move_within_own_column_witness :
  let w := Samples.loaded [Samples.backend 7 1 0; Samples.backend 8 1 1] in
  ∃ target newOrder,
    requests (useKanban.moveTask "7" todo Samples.clock w).1
    = [MoveTask 7 target newOrder] ∧ (1 ≤ newOrder)%Z.
Proof.
  intros w.
  assert (H7 : (7 : Z) ≠ 0) by discriminate.
  destruct (move_within_own_column "7" Samples.clock w
              (transformBackendTask (Samples.backend 7 1 0)) 7
              eq_refl eq_refl H7) as (target & newOrder & Hreq & _ & Hle).
  exists target, newOrder. split; [exact Hreq | exact Hle].
Defined.

(** ** Overlapping mutations *)

Lemma settle_rejected_loaded (err : ApiFailure) (p : Pending) (w : World)
    (previous : list Task) :
  previousTasks (context p) = Some previous →
  tasksData (client (settle (Rejected err) p w)) = Some previous.
Proof.
  intros Hprev. unfold settle. simpl. rewrite onError_restore.
  destruct (context p) as [prev]. simpl in Hprev. subst prev. reflexivity.
Qed.

Lemma mutate_pending (m : Mutation) (clock : Clock) (w : World) :
  ∃ p, (mutate m clock w).2 = Some p ∧ variables p = m ∧
       previousTasks (context p) = tasksData (client w).
Proof.
  unfold mutate. pose proof (onMutate_snapshot m clock (client w)) as Hsnap.
  destruct (onMutate m clock (client w)) as [edited ctx]; simpl in *.
  eexists. split; [reflexivity|]. split; [reflexivity|exact Hsnap].
Qed.

(** X15. A rollback restores the whole list, not one task: if a second
    mutation has written its optimistic edit while the first was in flight
    and the first request then fails, the cache goes back to the list held
    before the first mutation, and the second mutation's edit is gone
    although its request is still under way. *)
Theorem rollback_discards_later_edit (m1 m2 : Mutation) (clock clock' : Clock)
    (err : ApiFailure) (w : World) (cached : list Task)
    (Hloaded : tasksData (client w) = Some cached) :
  ∃ p1 p2,
    (mutate m1 clock w).2 = Some p1 ∧
    (mutate m2 clock' (mutate m1 clock w).1).2 = Some p2 ∧
    let w2 := (mutate m2 clock' (mutate m1 clock w).1).1 in
    tasksData (client w2)
    = Some (optimistic_edit m2 clock' (optimistic_edit m1 clock cached)) ∧
    tasksData (client (settle (Rejected err) p1 w2)) = Some cached ∧
    requests (settle (Rejected err) p1 w2) = requests w ++ [m1; m2].
Proof.
  destruct (mutate_pending m1 clock w) as (p1 & Hp1 & _ & Hs1).
  destruct (mutate_pending m2 clock' (mutate m1 clock w).1) as (p2 & Hp2 & _ & _).
  exists p1, p2. split; [exact Hp1|]. split; [exact Hp2|]. cbv zeta.
  assert (Hc1 : tasksData (client (mutate m1 clock w).1)
                = Some (optimistic_edit m1 clock cached)).
  { destruct (mutate_client m1 clock w) as [-> _].
    apply onMutate_loaded. exact Hloaded. }
  split.
  - destruct (mutate_client m2 clock' (mutate m1 clock w).1) as [-> _].
    apply onMutate_loaded. exact Hc1.
  - split.
    + apply settle_rejected_loaded. rewrite Hs1. exact Hloaded.
    + simpl.
      destruct (mutate_client m2 clock' (mutate m1 clock w).1) as (_ & -> & _).
      destruct (mutate_client m1 clock w) as (_ & -> & _).
      rewrite <- app_assoc. reflexivity.
Qed.

Lemma rollback_discards_later_edit_witness :
  let w := Samples.loaded [Samples.backend 7 1 0; Samples.backend 9 3 0] in
  ∃ p1, (mutate (DeleteTask 7) Samples.clock w).2 = Some p1 ∧
        tasksData (client (settle (Rejected NetworkFailure) p1
                             (mutate (MoveTask 9 1 1) Samples.clock
                                (mutate (DeleteTask 7) Samples.clock w).1).1))
        = tasksData (client w).
Proof.
  intros w.
  destruct (rollback_discards_later_edit (DeleteTask 7) (MoveTask 9 1 1)
              Samples.clock Samples.clock NetworkFailure w
              (useKanban.tasks w) eq_refl)
    as (p1 & p2 & Hp1 & _ & _ & Hback & _).
  exists p1. split; [exact Hp1 | exact Hback].
Defined.

(** X16. When two overlapping mutations both fail, the one rejected last
    wins: after the first rollback and then the second, the cache holds the
    second mutation's snapshot, that is the list with the first mutation's
    optimistic edit still applied, not the list held before either. *)
Theorem double_failure_keeps_first_edit (m1 m2 : Mutation) (clock clock' : Clock)
    (err err' : ApiFailure) (w : World) (cached : list Task)
    (Hloaded : tasksData (client w) = Some cached) :
  ∃ p1 p2,
    (mutate m1 clock w).2 = Some p1 ∧
    (mutate m2 clock' (mutate m1 clock w).1).2 = Some p2 ∧
    tasksData (client (settle (Rejected err') p2
                         (settle (Rejected err) p1
                            (mutate m2 clock' (mutate m1 clock w).1).1)))
    = Some (optimistic_edit m1 clock cached).
Proof.
  destruct (mutate_pending m1 clock w) as (p1 & Hp1 & _ & _).
  destruct (mutate_pending m2 clock' (mutate m1 clock w).1) as (p2 & Hp2 & _ & Hs2).
  exists p1, p2. split; [exact Hp1|]. split; [exact Hp2|].
  apply settle_rejected_loaded. rewrite Hs2.
  destruct (mutate_client m1 clock w) as [-> _].
  apply onMutate_loaded. exact Hloaded.
Qed.

Lemma double_failure_keeps_first_edit_witness :
  let w := Samples.loaded [Samples.backend 7 1 0; Samples.backend 9 3 0] in
  ∃ p1 p2,
    (mutate (DeleteTask 7) Samples.clock w).2 = Some p1 ∧
    (mutate (MoveTask 9 1 1) Samples.clock
       (mutate (DeleteTask 7) Samples.clock w).1).2 = Some p2 ∧
    tasksData (client (settle (Rejected NetworkFailure) p2
                         (settle (Rejected NetworkFailure) p1
                            (mutate (MoveTask 9 1 1) Samples.clock
                               (mutate (DeleteTask 7) Samples.clock w).1).1)))
    = Some (useTasks_queryFn [Samples.backend 9 3 0]).
Proof.
  intros w.
  exact (double_failure_keeps_first_edit (DeleteTask 7) (MoveTask 9 1 1)
           Samples.clock Samples.clock NetworkFailure NetworkFailure w
           (useKanban.tasks w) eq_refl).
Defined.

(** X17. A request that succeeds leaves the cache as the optimistic edit
    made it - the edited list, or still no list when none was cached - and
    marks the entry as invalidated, which is what has the list fetched
    again; this holds for every kind of mutation. *)
Theorem success_keeps_edit_and_invalidates (m : Mutation) (clock : Clock)
    (w : World) :
  ∃ p, (mutate m clock w).2 = Some p ∧
    tasksData (client (settle Resolved p (mutate m clock w).1))
    = match tasksData (client w) with
      | Some cached => Some (optimistic_edit m clock cached)
      | None => None
      end ∧
    tasksInvalidated (client (settle Resolved p (mutate m clock w).1)) = true.
Proof.
  destruct (mutate_pending m clock w) as (p & Hp & Hv & _).
  exists p. split; [exact Hp|].
  assert (Hdata : tasksData (client (mutate m clock w).1)
                  = match tasksData (client w) with
                    | Some cached => Some (optimistic_edit m clock cached)
                    | None => None
                    end).
  { destruct (mutate_client m clock w) as [-> _].
    destruct (tasksData (client w)) as [cached|] eqn:Hc.
    - exact (onMutate_loaded m clock _ cached Hc).
    - rewrite (onMutate_unloaded m clock _ Hc). exact Hc. }
  unfold settle. simpl. rewrite Hv, <- Hdata.
  destruct m; split; reflexivity.
Qed.

(** ** The board: columns and drag handlers *)

Lemma insert_by_order_perm (c : BackendColumn) (cs : list BackendColumn) :
  KanbanBoard.insert_by_order c cs ≡ₚ c :: cs.
Proof.
  induction cs as [|c' rest IH]; simpl; [reflexivity|].
  destruct (col_order c' <=? col_order c)%Z; [|reflexivity].
  rewrite IH. apply perm_swap.
Qed.

Lemma insert_by_order_sorted (c : BackendColumn) (cs : list BackendColumn) :
  StronglySorted (λ a b, (col_order a ≤ col_order b)%Z) cs →
  StronglySorted (λ a b, (col_order a ≤ col_order b)%Z)
                 (KanbanBoard.insert_by_order c cs).
Proof.
  induction cs as [|c' rest IH]; simpl; intros Hs.
  - repeat constructor.
  - apply StronglySorted_inv in Hs as [Hrest Hall].
    destruct (Z.leb_spec (col_order c') (col_order c)).
    + constructor; [apply IH; exact Hrest|].
      rewrite insert_by_order_perm. constructor; assumption.
    + constructor; [constructor; assumption|].
      constructor; [lia|].
      eapply Forall_impl; [exact Hall|]. simpl. intros x Hx. lia.
Qed.

(** Inserting after the columns of smaller or equal order keeps, for each
    order value, the sequence of the columns that carry it. *)
Lemma insert_by_order_stable (k : Z) (c : BackendColumn) (cs : list BackendColumn) :
  StronglySorted (λ a b, (col_order a ≤ col_order b)%Z) cs →
  filter (λ x, col_order x = k) (KanbanBoard.insert_by_order c cs)
  = filter (λ x, col_order x = k) cs
    ++ (if decide (col_order c = k) then [c] else []).
Proof.
  induction cs as [|c' rest IH]; simpl; intros Hs.
  - rewrite filter_cons, filter_nil. destruct (decide (col_order c = k)); reflexivity.
  - apply StronglySorted_inv in Hs as [Hrest Hall].
    destruct (Z.leb_spec (col_order c') (col_order c)).
    + rewrite !filter_cons, (IH Hrest).
      destruct (decide (col_order c' = k)); reflexivity.
    + rewrite (filter_cons _ c).
      destruct (decide (col_order c = k)) as [Hk|Hk]; [|rewrite app_nil_r; reflexivity].
      assert (Hnone : filter (λ x, col_order x = k) (c' :: rest) = []).
      { apply elem_of_nil_inv. intros x Hx.
        apply list_elem_of_filter in Hx as [Hxk Hx].
        apply elem_of_cons in Hx as [->|Hx]; [lia|].
        rewrite Forall_forall in Hall. specialize (Hall x Hx). simpl in Hall. lia. }
      rewrite Hnone. reflexivity.
Qed.

Lemma sort_by_order_invariant (k : Z) (cs acc : list BackendColumn) :
  StronglySorted (λ a b, (col_order a ≤ col_order b)%Z) acc →
  let sorted := fold_left (λ acc c, KanbanBoard.insert_by_order c acc) cs acc in
  sorted ≡ₚ acc ++ cs ∧
  StronglySorted (λ a b, (col_order a ≤ col_order b)%Z) sorted ∧
  filter (λ x, col_order x = k) sorted
  = filter (λ x, col_order x = k) acc ++ filter (λ x, col_order x = k) cs.
Proof.
  revert acc. induction cs as [|c rest IH]; intros acc Hacc; simpl.
  - rewrite !app_nil_r. auto.
  - destruct (IH (KanbanBoard.insert_by_order c acc)
                 (insert_by_order_sorted c acc Hacc)) as (Hperm & Hsorted & Hstable).
    split; [|split].
    + rewrite Hperm, insert_by_order_perm. apply Permutation_middle.
    + exact Hsorted.
    + rewrite Hstable, (insert_by_order_stable k c acc Hacc), filter_cons.
      rewrite <- app_assoc. destruct (decide (col_order c = k)); reflexivity.
Qed.

(** X18. The columns are sorted the way [Array.prototype.sort] sorts them
    with the comparator [a.order - b.order]: the result holds the same
    columns, in ascending order, and columns of equal order keep the
    sequence in which the store returned them. *)
Theorem sort_by_order_correct (backendColumns : list BackendColumn) (k : Z) :
  KanbanBoard.sort_by_order backendColumns ≡ₚ backendColumns ∧
  StronglySorted (λ a b, (col_order a ≤ col_order b)%Z)
                 (KanbanBoard.sort_by_order backendColumns) ∧
  filter (λ x, col_order x = k) (KanbanBoard.sort_by_order backendColumns)
  = filter (λ x, col_order x = k) backendColumns.
Proof.
  unfold KanbanBoard.sort_by_order.
  destruct (sort_by_order_invariant k backendColumns [] (SSorted_nil _))
    as (Hperm & Hsorted & Hstable).
  auto.
Qed.

(** X19. A status is a column of the board exactly when the store returned
    a column whose id the column table maps to it; columns with unknown ids
    are left out, so the board never has more columns than the store
    returned. *)
Theorem board_columns_are_the_known_ones (backendColumns : list BackendColumn)
    (s : TaskStatus) :
  (s ∈ KanbanBoard.columns backendColumns
   ↔ ∃ col, col ∈ backendColumns ∧ COLUMN_STATUS_MAP !! col_id col = Some s) ∧
  (length (KanbanBoard.columns backendColumns) ≤ length backendColumns)%nat.
Proof.
  unfold KanbanBoard.columns.
  destruct (sort_by_order_invariant 0 backendColumns [] (SSorted_nil _))
    as (Hperm & _ & _).
  fold (KanbanBoard.sort_by_order backendColumns) in Hperm. simpl in Hperm.
  split.
  - rewrite list_elem_of_omap. split; intros (col & Hin & Hs); exists col;
      (split; [|exact Hs]); [rewrite <- Hperm|rewrite Hperm]; exact Hin.
  - rewrite <- (Permutation_length Hperm).
    generalize (KanbanBoard.sort_by_order backendColumns). intros l.
    induction l as [|c rest IH]; csimpl; [lia|].
    destruct (COLUMN_STATUS_MAP !! col_id c); simpl; lia.
Qed.

(** X20. However a drag ends, the board is idle afterwards and holds the
    same columns; the application state is either untouched, with nothing in
    flight, or it is what [moveTask] made of it for the dragged id and a
    status that is a column of the board and whose literal is the drop
    target's id. *)
Theorem handleDragEnd_returns_to_idle (event : KanbanBoard.DragEndEvent)
    (clock : Clock) (b : KanbanBoard.Board) :
  let r := KanbanBoard.handleDragEnd event clock b in
  KanbanBoard.activeTask r.1 = None ∧
  KanbanBoard.backendColumns r.1 = KanbanBoard.backendColumns b ∧
  ((KanbanBoard.world r.1 = KanbanBoard.world b ∧ r.2 = None) ∨
   ∃ s, KanbanBoard.over_id event = Some (status_literal s) ∧
        s ∈ KanbanBoard.columns (KanbanBoard.backendColumns b) ∧
        (KanbanBoard.world r.1, r.2)
        = useKanban.moveTask (KanbanBoard.active_id event) s clock
                             (KanbanBoard.world b)).
Proof.
  unfold KanbanBoard.handleDragEnd.
  destruct (KanbanBoard.over_id event) as [over|]; [|simpl; auto].
  destruct (status_of_literal over) as [s|] eqn:Hlit; [|simpl; auto].
  case_bool_decide as Hcol; [|simpl; auto].
  destruct (useKanban.moveTask _ s clock _) as [w p] eqn:Hmove. simpl.
  split; [reflexivity|]. split; [reflexivity|]. right.
  exists s. rewrite (status_of_literal_sound over s Hlit). auto.
Qed.

(** X21. Starting a drag leaves the application state alone; the active
    task is a cached task carrying the dragged id, and there is none only
    when no cached task carries that id. *)
Theorem handleDragStart_picks_the_task (event : KanbanBoard.DragStartEvent)
    (b : KanbanBoard.Board) :
  KanbanBoard.world (KanbanBoard.handleDragStart event b) = KanbanBoard.world b ∧
  match KanbanBoard.activeTask (KanbanBoard.handleDragStart event b) with
  | Some t => t ∈ useKanban.tasks (KanbanBoard.world b) ∧
              id t = KanbanBoard.start_active_id event
  | None => ∀ t, t ∈ useKanban.tasks (KanbanBoard.world b) →
                 id t ≠ KanbanBoard.start_active_id event
  end.
Proof.
  split; [reflexivity|]. simpl.
  destruct (List.find _ _) as [t|] eqn:Hfind.
  - apply find_some in Hfind as [Hin Hid].
    split; [apply list_elem_of_In; exact Hin|].
    apply bool_decide_eq_true in Hid. exact Hid.
  - intros t Hin. apply list_elem_of_In in Hin.
    pose proof (find_none _ _ Hfind t Hin) as Hid. simpl in Hid.
    apply bool_decide_eq_false in Hid. exact Hid.
Qed.

(** ** The creation form and its dialog *)

Lemma trimStart_head (s : string) (c : ascii) (rest : string) :
  trimStart s = String c rest → is_white_space c = false.
Proof.
  induction s as [|c' s' IH]; simpl; [discriminate|].
  destruct (is_white_space c') eqn:Hws; [exact IH|].
  intros [= <- _]. exact Hws.
Qed.

Lemma trimEnd_head (c : ascii) (rest : string) :
  is_white_space c = false → trimEnd (String c rest) = String c (trimEnd rest).
Proof. intros Hws. simpl. rewrite Hws. destruct (trimEnd rest); reflexivity. Qed.

Lemma trimEnd_idempotent (s : string) : trimEnd (trimEnd s) = trimEnd s.
Proof.
  induction s as [|c rest IH]; [reflexivity|]. simpl.
  destruct (trimEnd rest) as [|c' kept] eqn:Hrest.
  - destruct (is_white_space c) eqn:Hws; [reflexivity|].
    simpl. rewrite Hws. reflexivity.
  - simpl in IH |- *. rewrite IH. reflexivity.
Qed.

(** A trimmed string has no white space left at either end. *)
Lemma trim_fixed (s : string) :
  trimStart (trim s) = trim s ∧ trimEnd (trim s) = trim s.
Proof.
  unfold trim. split; [|apply trimEnd_idempotent].
  destruct (trimStart s) as [|c rest] eqn:Hstart; [reflexivity|].
  pose proof (trimStart_head s c rest Hstart) as Hws.
  rewrite (trimEnd_head c rest Hws). simpl. rewrite Hws. reflexivity.
Qed.

(** X22. The schema decides on the title as typed: it accepts exactly the
    titles of 3 to 200 characters.  What it hands on is the trimmed title,
    which has no white space at either end and at most 200 characters, the
    trimmed description and the status; what it reports otherwise is a
    non-empty list of messages. *)
Theorem schema_decides_on_typed_title (values : TaskCreateFormValues) :
  match taskCreateSchema.safeParse values with
  | inr data =>
      (3 ≤ String.length (f_title values) ≤ 200)%nat ∧
      f_title data = trim (f_title values) ∧
      f_description data = trim <$> f_description values ∧
      f_status data = f_status values ∧
      (String.length (f_title data) ≤ 200)%nat ∧
      trimStart (f_title data) = f_title data ∧
      trimEnd (f_title data) = f_title data
  | inl errors =>
      (String.length (f_title values) < 3
       ∨ 200 < String.length (f_title values))%nat ∧
      errors ≠ []
  end.
Proof.
  destruct (Nat.ltb_spec (String.length (f_title values)) 3) as [Hshort|Hmin];
    [|destruct (Nat.ltb_spec 200 (String.length (f_title values))) as [Hlong|Hmax]].
  - destruct (handleSubmit_title_out_of_range values Samples.clock Samples.unloaded
                (or_introl Hshort)) as (errors & Hne & Hsub).
    unfold TaskCreateForm.handleSubmit in Hsub.
    destruct (taskCreateSchema.safeParse values) as [errs|data].
    + injection Hsub as <-. auto.
    + destruct (TaskCreateForm.onSubmit data _ _); discriminate.
  - destruct (handleSubmit_title_out_of_range values Samples.clock Samples.unloaded
                (or_intror Hlong)) as (errors & Hne & Hsub).
    unfold TaskCreateForm.handleSubmit in Hsub.
    destruct (taskCreateSchema.safeParse values) as [errs|data].
    + injection Hsub as <-. auto.
    + destruct (TaskCreateForm.onSubmit data _ _); discriminate.
  - rewrite (safeParse_title_in_range values (conj Hmin Hmax)). simpl.
    pose proof (trim_length (f_title values)).
    destruct (trim_fixed (f_title values)).
    repeat split; auto; lia.
Qed.

(** X24. An accepted submission sends one create request built from the
    parsed values: the trimmed title, the column of the chosen status, the
    number of tasks listed under that status, and as description the trimmed
    text, or [null] when the field was left empty or holds only white
    space. *)
Theorem accepted_submission_request (values : TaskCreateFormValues)
    (clock : Clock) (w : World)
    (Hlen : (3 ≤ String.length (f_title values) ≤ 200)%nat) :
  ∃ request p,
    TaskCreateForm.handleSubmit values clock w
    = ((TaskCreateForm.handleSubmit values clock w).1,
       TaskCreateForm.Submitted (Some p)) ∧
    requests (TaskCreateForm.handleSubmit values clock w).1
    = requests w ++ [CreateTask request] ∧
    cr_title request = trim (f_title values) ∧
    cr_description request
    = match f_description values with
      | Some d => if String.eqb (trim d) "" then Null else Val (trim d)
      | None => Null
      end ∧
    STATUS_COLUMN_MAP !! f_status values = Some (cr_column_id request) ∧
    cr_order request
    = Z.of_nat (length (useKanban.getTasksByStatusMemo w (f_status values))).
Proof.
  unfold TaskCreateForm.handleSubmit.
  rewrite (safeParse_title_in_range values Hlen).
  unfold TaskCreateForm.onSubmit, useKanban.addTask, mutate.
  destruct (onMutate _ clock (client w)) as [edited ctx]. simpl.
  eexists. eexists. split; [reflexivity|]. split; [reflexivity|].
  split; [reflexivity|]. simpl. split; [|split; [|reflexivity]].
  - unfold or_null, or_undefined, truthy_text.
    destruct (f_description values) as [d|]; simpl; [|reflexivity].
    destruct (String.eqb (trim d) "") eqn:Hblank; simpl;
      rewrite ?Hblank; reflexivity.
  - rewrite STATUS_COLUMN_MAP_total. destruct (f_status values); reflexivity.
Qed.

Lemma accepted_submission_request_witness :
  let values := {| f_title := "Write report"; f_description := Some "   ";
                   f_status := done |} in
  let w := Samples.loaded [Samples.backend 9 3 0] in
  ∃ request,
    requests (TaskCreateForm.handleSubmit values Samples.clock w).1
    = [CreateTask request] ∧
    cr_title request = "Write report" ∧ cr_description request = Null.
Proof.
  intros values w.
  assert (Hlen : (3 ≤ String.length (f_title values) ≤ 200)%nat)
    by (simpl; lia).
  destruct (accepted_submission_request values Samples.clock w Hlen)
    as (request & p & _ & Hreq & Htitle & Hdesc & _).
  exists request. split; [exact Hreq|]. split; [exact Htitle | exact Hdesc].
Defined.

(** X25. The dialog does not wait for the store.  When the schema accepts
    the typed values, pressing submit closes the dialog and resets the form
    to its defaults while the request is still in flight, and a later
    rejection only rolls the cached list back, the dialog being closed
    already.  When the schema refuses them, the dialog stays as it is, the
    messages are shown and the application state is untouched. *)
Theorem dialog_closes_before_settlement (status0 : TaskStatus) (clock : Clock)
    (w : World) (d : TaskCreateDialog.Dialog) :
  let r := TaskCreateDialog.submit status0 clock w d in
  match taskCreateSchema.safeParse (TaskCreateDialog.values d) with
  | inr _ =>
      TaskCreateDialog.dialogOpen r.1.2 = false ∧
      TaskCreateDialog.values r.1.2 = getDefaultTaskFormValues status0 ∧
      TaskCreateDialog.shown_errors r.1.2 = [] ∧
      ∃ p, r.2 = Some p ∧
           ∀ err, tasksData (client (settle (Rejected err) p r.1.1))
                  = tasksData (client w)
  | inl errors =>
      r = (w, {| TaskCreateDialog.dialogOpen := TaskCreateDialog.dialogOpen d;
                 TaskCreateDialog.values := TaskCreateDialog.values d;
                 TaskCreateDialog.shown_errors := errors |}, None)
  end.
Proof.
  unfold TaskCreateDialog.submit, TaskCreateForm.handleSubmit.
  destruct (taskCreateSchema.safeParse (TaskCreateDialog.values d))
    as [errors|data]; [reflexivity|].
  unfold TaskCreateForm.onSubmit, useKanban.addTask.
  match goal with
  | |- context [mutate ?m clock w] =>
      pose proof (λ err, mutate_rollback_tasksData m clock err w) as Hback;
      destruct (mutate m clock w) as [w1 q]
  end.
  simpl in *. split; [reflexivity|]. split; [reflexivity|]. split; [reflexivity|].
  destruct (Hback NetworkFailure) as (p & -> & _).
  exists p. split; [reflexivity|]. intros err.
  destruct (Hback err) as (p' & [= <-] & Hdata). exact Hdata.
Qed.

(** ** Query keys *)

(** X26. The filter used by every mutation hook, [kanbanKeys.tasks()],
    selects the task list, each single task and each per-column task list,
    and selects neither the column list nor a single column; the key of a
    single task is never the key of a per-column list. *)
Theorem tasks_filter_scope (id0 columnId0 : Z) :
  matches_filter kanbanKeys.tasks kanbanKeys.tasks ∧
  matches_filter kanbanKeys.tasks (kanbanKeys.task id0) ∧
  matches_filter kanbanKeys.tasks (kanbanKeys.tasksByColumn columnId0) ∧
  ¬ matches_filter kanbanKeys.tasks kanbanKeys.columns ∧
  ¬ matches_filter kanbanKeys.tasks (kanbanKeys.column id0) ∧
  kanbanKeys.task id0 ≠ kanbanKeys.tasksByColumn columnId0.
Proof.
  unfold matches_filter.
  split; [reflexivity|].
  split; [exists [KeyNumber id0]; reflexivity|].
  split; [exists [KeyText "column"; KeyNumber columnId0]; reflexivity|].
  split; [intros [k Hk]; discriminate Hk|].
  split; [intros [k Hk]; discriminate Hk|].
  discriminate.
Qed.

(** ** The interceptors of the API client *)

(** X27. The request interceptor touches only the Authorization header:
    it sets it to "Bearer " followed by the stored token when a non-empty
    token is stored, leaves it alone otherwise, and never changes another
    header. *)
Theorem onRequest_sets_only_authorization (browser : apiClient.Browser)
    (headers : gmap string string) (name : string) :
  apiClient.onRequest browser headers !! name =
    match apiClient.localStorage browser !! "authToken" with
    | Some token =>
        if decide (name = "Authorization" ∧ token ≠ "")
        then Some (String.append "Bearer " token)
        else headers !! name
    | None => headers !! name
    end.
Proof.
  unfold apiClient.onRequest.
  destruct (apiClient.localStorage browser !! "authToken") as [token|];
    [|reflexivity].
  destruct (String.eqb_spec token "") as [->|Hne].
  - case_decide as H; [destruct H as [_ H]; contradiction|reflexivity].
  - case_decide as H.
    + destruct H as [-> _]. apply lookup_insert_eq.
    + apply lookup_insert_ne. intros <-. apply H. auto.
Qed.

(** X28. A 401 response signs the user out silently: the stored token is
    removed, nothing is logged, every other stored item is kept, and the
    next request leaves without an added Authorization header. *)
Theorem unauthorized_response_drops_token (error : apiClient.AxiosError)
    (response : apiClient.ErrorResponse) (browser : apiClient.Browser)
    (headers : gmap string string) (key : string)
    (Hresponse : apiClient.error_response error = Some response)
    (Hstatus : apiClient.response_status response = 401) :
  let browser' := apiClient.onResponseError error browser in
  apiClient.localStorage browser' !! "authToken" = None ∧
  (key ≠ "authToken" →
   apiClient.localStorage browser' !! key = apiClient.localStorage browser !! key) ∧
  apiClient.errors_logged browser' = apiClient.errors_logged browser ∧
  apiClient.onRequest browser' headers = headers.
Proof.
  unfold apiClient.onResponseError. rewrite Hresponse.
  destruct (decide (apiClient.response_status response = 401)); [|contradiction].
  simpl. split; [apply lookup_delete_eq|].
  split; [intros Hne; apply lookup_delete_ne; congruence|].
  split; [reflexivity|].
  unfold apiClient.onRequest. simpl. rewrite lookup_delete_eq. reflexivity.
Qed.

Lemma unauthorized_response_drops_token_witness :
  let browser := {| apiClient.localStorage := {["authToken" := "abc"]};
                    apiClient.errors_logged := [] |} in
  let error := {| apiClient.error_message := "Request failed with status code 401";
                  apiClient.error_response :=
                    Some {| apiClient.response_status := 401;
                            apiClient.response_data := None |};
                  apiClient.error_request := true |} in
  apiClient.onRequest browser ∅ !! "Authorization" = Some "Bearer abc" ∧
  apiClient.onRequest (apiClient.onResponseError error browser) ∅ = ∅.
Proof.
  intros browser error. split; [reflexivity|].
  exact (proj2 (proj2 (proj2
           (unauthorized_response_drops_token error
              {| apiClient.response_status := 401;
                 apiClient.response_data := None |}
              browser ∅ "theme" eq_refl eq_refl)))).
Defined.

(** X29. Every other failure is logged once and changes nothing else: when
    the error carries no response, or a response with a status other than
    401, the storage is untouched and exactly one line is added to the
    log. *)
Theorem other_failures_are_logged_once (error : apiClient.AxiosError)
    (browser : apiClient.Browser)
    (Hstatus : ∀ response, apiClient.error_response error = Some response →
                           apiClient.response_status response ≠ 401) :
  apiClient.localStorage (apiClient.onResponseError error browser)
  = apiClient.localStorage browser ∧
  ∃ line,
    apiClient.errors_logged (apiClient.onResponseError error browser)
    = apiClient.errors_logged browser ++ [line].
Proof.
  unfold apiClient.onResponseError.
  destruct (apiClient.error_response error) as [response|].
  - specialize (Hstatus response eq_refl).
    destruct (decide (apiClient.response_status response = 401)); [contradiction|].
    repeat case_decide; simpl; (split; [reflexivity|eexists; reflexivity]).
  - destruct (apiClient.error_request error); simpl;
      (split; [reflexivity|eexists; reflexivity]).
Qed.

Lemma other_failures_are_logged_once_witness :
  let browser := {| apiClient.localStorage := {["authToken" := "abc"]};
                    apiClient.errors_logged := [] |} in
  let error := {| apiClient.error_message := "timeout of 10000ms exceeded";
                  apiClient.error_response := None;
                  apiClient.error_request := true |} in
  apiClient.localStorage (apiClient.onResponseError error browser)
  = apiClient.localStorage browser.
Proof.
  intros browser error.
  refine (proj1 (other_failures_are_logged_once error browser _)).
  intros response Hresponse. discriminate Hresponse.
Defined.

(** The lines that [settle] records for a failed request are the ones the
    response interceptor writes for the corresponding Axios error. *)
Lemma interceptor_log_agrees (err : ApiFailure) (message : string)
    (data : option apiClient.ResponseData) (browser : apiClient.Browser) :
  fst <$> apiClient.errors_logged
            (apiClient.onResponseError (axios_error_of err message data) browser)
  = (fst <$> apiClient.errors_logged browser) ++ interceptor_log err.
Proof.
  destruct err as [|http_status]; simpl.
  - unfold apiClient.onResponseError. simpl. rewrite fmap_app. reflexivity.
  - unfold apiClient.onResponseError. simpl.
    repeat case_decide; simpl; rewrite ?fmap_app, ?app_nil_r; reflexivity.
Qed.

(** ** Updates *)

(** X30. [updateTask] can only change title, description and order.  When
    the updates name none of the three (a change of status or priority,
    say), the request body is empty and the optimistic edit merely stamps
    [updatedAt] on the targeted task; every other field of every cached task
    is as before. *)
Theorem updateTask_ignores_other_fields (taskId : string) (updates : TaskUpdates)
    (clock : Clock) (w : World) (task : Task) (b : Z)
    (Hfound : List.find (λ t, bool_decide (id t = taskId)) (useKanban.tasks w)
              = Some task)
    (Hsynced : backendId task = Some b) (Hnonzero : b ≠ 0)
    (Htitle : u_title updates = None)
    (Hdescription : u_description updates = None
                    ∨ u_description updates = Some Undefined)
    (Horder : u_order updates = None) :
  let w1 := (useKanban.updateTask taskId updates clock w).1 in
  requests w1
  = requests w ++ [UpdateTask b {| ur_title := None; ur_description := None;
                                   ur_order := None |}] ∧
  useKanban.tasks w1
  = (λ t, if decide (backendId t = Some b)
          then with_updatedAt t (iso_first clock) else t) <$> useKanban.tasks w.
Proof.
  intros w1. subst w1.
  pose proof (synced_backend_id_found taskId w task b Hfound Hsynced Hnonzero)
    as Hguard.
  destruct (guard_passes taskId todo updates clock w b Hguard) as (_ & _ & ->).
  assert (Hreq : transformToUpdateRequest updates
                 = {| ur_title := None; ur_description := None; ur_order := None |}).
  { unfold transformToUpdateRequest. rewrite Htitle, Horder.
    destruct Hdescription as [->| ->]; reflexivity. }
  rewrite Hreq. split; [apply mutate_client|].
  rewrite mutate_tasks.
  destruct (found_task_cached taskId w task Hfound) as [-> _].
  simpl. apply list_fmap_ext. intros _ t _.
  destruct (decide (backendId t = Some b)); [|reflexivity].
  destruct t; reflexivity.
Qed.

Lemma updateTask_ignores_other_fields_witness :
  let w := Samples.loaded [Samples.backend 7 1 0] in
  let updates := {| u_id := None; u_title := None; u_description := None;
                    u_status := Some done; u_priority := Some high;
                    u_createdAt := None; u_updatedAt := None;
                    u_backendId := None; u_columnId := None; u_order := None |} in
  status <$> useKanban.tasks (useKanban.updateTask "7" updates Samples.clock w).1
  = [todo].
Proof.
  intros w updates.
  assert (H7 : (7 : Z) ≠ 0) by discriminate.
  destruct (updateTask_ignores_other_fields "7" updates Samples.clock w
              (transformBackendTask (Samples.backend 7 1 0)) 7
              eq_refl eq_refl H7 eq_refl (or_introl eq_refl) eq_refl)
    as [_ Htasks].
  rewrite Htasks. reflexivity.
Defined.

(** ** Error messages *)

(** X23. An [Error] instance always yields its own message, whatever
    response or code it carries; for any other object the text is never
    empty and a non-empty message sent by the server takes precedence over
    the texts chosen by status or code; anything that is not an object
    yields the generic text. *)
Theorem getErrorMessage_precedence (message : string) (shape : ErrorShape) :
  getErrorMessage (ThrownError message shape) = message ∧
  getErrorMessage (ThrownObject shape) ≠ "" ∧
  match shape_response_message shape with
  | Some m =>
      if String.eqb m "" then True else getErrorMessage (ThrownObject shape) = m
  | None => True
  end ∧
  getErrorMessage ThrownOther = "An unexpected error occurred".
Proof.
  split; [reflexivity|]. split; [|split; [|reflexivity]].
  - unfold getErrorMessage.
    destruct (shape_response_message shape) as [m|];
      [destruct (String.eqb_spec m "") as [->|Hne]; [|exact Hne]|];
      repeat case_decide; discriminate.
  - unfold getErrorMessage.
    destruct (shape_response_message shape) as [m|]; [|exact I].
    destruct (String.eqb m ""); [exact I|reflexivity].
Qed.
